(** * Olist order features: a shallow embedding of [olist/data.py] and
    [olist/order.py]

    The loader ([Olist.get_data]) and the per-order feature derivations of
    class [Order] are translated into Rocq functions.  Tables are lists of
    typed rows, a missing cell ([NaN], [NaT]) is [None] (or the float
    [nan] in a float column), Python exceptions are the [Raise] case of
    [result], and the calls the loader makes to the file system are
    recorded in a trace. *)

From Stdlib Require Import ZArith List String Ascii Lia Floats Reals Lra.
From stdpp Require Import gmap strings list sorting.
Import ListNotations.

Local Open Scope string_scope.
Local Open Scope list_scope.
Local Open Scope Z_scope.

(** ** Exceptions and the error monad *)

(** The exceptions the modelled code can raise.  [FileAccessError] stands
    for Python's [OSError] family ([FileNotFoundError],
    [NotADirectoryError], [PermissionError]) as raised by [os.listdir] and
    by opening a file; [ParserError] for what [pd.read_csv] raises on
    content it cannot parse; [ValueError] for what [pd.to_datetime] raises
    on a column it cannot read as dates. *)
Inductive exn : Set :=
  | FileAccessError
  | ParserError
  | ValueError.

Inductive result (A : Type) : Type :=
  | Ok (a : A)
  | Raise (e : exn).
Arguments Ok {A} a.
Arguments Raise {A} e.

#[global] Instance exn_eq_dec : EqDecision exn.
Proof. solve_decision. Defined.

#[global] Instance result_ret : MRet result := λ A a, Ok a.
#[global] Instance result_bind : MBind result := λ A B f m,
  match m with
  | Ok a => f a
  | Raise e => Raise e
  end.
#[global] Instance result_fmap : FMap result := λ A B f m,
  match m with
  | Ok a => Ok (f a)
  | Raise e => Raise e
  end.

(** ** Cells and columns *)

(** A float cell is missing exactly when it is [nan]. *)
Definition notna_float (x : float) : Prop := PrimFloat.is_nan x = false.

(** One step of the grouped sum of a float column ([group_sum] and
    [group_mean] of pandas): a missing cell is skipped, every other cell
    is added by Kahan's compensated summation, where [sumx] is the running
    sum and [compensation] the rounding error carried along; a
    compensation that is [nan] (after an infinite cell) is reset to
    zero. *)
Definition kahan_step (st : float * float) (val : float) : float * float :=
  let '(sumx, compensation) := st in
  if PrimFloat.is_nan val then st
  else
    let y := (val - compensation)%float in
    let t := (sumx + y)%float in
    let c := (t - sumx - y)%float in
    (t, if PrimFloat.is_nan c then 0%float else c).

(** [GroupBy.sum()] on a float column: the compensated binary64 sum of the
    cells that are not missing, in row order, [0.0] for an empty
    selection. *)
Definition sum_skipna (l : list float) : float :=
  (foldl kahan_step (0%float, 0%float) l).1.

(** Number of non-missing cells of a float column, as a float. *)
Definition count_notna (l : list float) : float :=
  PrimFloat.of_uint63
    (Uint63.of_Z (Z.of_nat (length (filter notna_float l)))).

(** [GroupBy.mean()] on a float column: the compensated sum over the count
    of the non-missing cells ([0.0 / 0.0 = nan] when there is none). *)
Definition mean_skipna (l : list float) : float :=
  (sum_skipna l / count_notna l)%float.

(** [int64] arithmetic: the result of an operation is kept modulo [2^64],
    in the range from [-2^63] to [2^63 - 1]. *)
Definition int64_wrap (z : Z) : Z := (z + 2 ^ 63) `mod` 2 ^ 64 - 2 ^ 63.

(** [GroupBy.sum()] on an [int64] column: the cells are added in row
    order, each addition in [int64]. *)
Definition sum_int (l : list Z) : Z :=
  foldl (λ acc x, int64_wrap (acc + x)) 0 l.

(** [GroupBy.nunique()]: the number of distinct values of a column,
    missing cells left out. *)
Definition nunique `{EqDecision A} (l : list (option A)) : nat :=
  length (remove_dups (omap (λ cell, cell) l)).

(** ** Table operations *)

(** [DataFrame.groupby(key)]: one group per distinct key, the keys in
    ascending order (pandas' default [sort=True]), each group holding its
    rows in table order. *)
Definition groupby {A K : Type} `{EqDecision K} (R : relation K)
    `{!RelDecision R} (key : A → K) (rows : list A) : list (K * list A) :=
  (λ k, (k, filter (λ r, key r = k) rows))
    <$> merge_sort R (remove_dups (key <$> rows)).

(** [left.merge(right, how='inner')] on one key column: for every left row,
    in order, one output row per right row with the same key. *)
Definition merge_inner {A B C K : Type} `{EqDecision K}
    (kl : A → K) (kr : B → K) (f : A → B → C)
    (l : list A) (r : list B) : list C :=
  a ← l; f a <$> filter (λ b, kl a = kr b) r.

(** [left.merge(right, how='left')]: as [merge_inner], and a left row
    without partner is kept once, the right columns missing. *)
Definition merge_left {A B C K : Type} `{EqDecision K}
    (kl : A → K) (kr : B → K) (f : A → option B → C)
    (l : list A) (r : list B) : list C :=
  a ← l;
  match filter (λ b, kl a = kr b) r with
  | [] => [f a None]
  | bs => f a ∘ Some <$> bs
  end.

(** ** The loaded tables

    Only the columns the derivations read are kept.  Identifiers and the
    status are strings, timestamps are the raw cells of the csv file
    ([None] when the cell is empty), prices and coordinates are floats
    ([nan] when the cell is empty), item numbers are [int64] cells.  The
    seller of an item can be missing ([None]): [nunique] and the joins on
    [seller_id] treat such a cell apart. *)

Module Orders.
Record row : Type := {
  order_id : string;
  customer_id : string;
  order_status : string;
  order_purchase_timestamp : option string;
  order_approved_at : option string;
  order_delivered_carrier_date : option string;
  order_delivered_customer_date : option string;
  order_estimated_delivery_date : option string
}.
End Orders.

Module OrderReviews.
Record row : Type := {
  order_id : string;
  review_score : option Z
}.
End OrderReviews.

Module OrderItems.
Record row : Type := {
  order_id : string;
  order_item_id : Z;
  seller_id : option string;
  price : float;
  freight_value : float
}.
End OrderItems.

Module Sellers.
Record row : Type := {
  seller_id : string;
  seller_zip_code_prefix : Z
}.
End Sellers.

Module Customers.
Record row : Type := {
  customer_id : string;
  customer_zip_code_prefix : Z
}.
End Customers.

Module Geolocation.
Record row : Type := {
  geolocation_zip_code_prefix : Z;
  geolocation_lat : float;
  geolocation_lng : float
}.
End Geolocation.

(** [self.data], the dictionary built by [Olist().get_data()], with its
    six tables parsed. *)
Record data : Type := {
  orders : list Orders.row;
  order_reviews : list OrderReviews.row;
  order_items : list OrderItems.row;
  sellers : list Sellers.row;
  customers : list Customers.row;
  geolocation : list Geolocation.row
}.

(** ** Rows of the derived tables *)

Module WaitTime.
(** Durations are in nanoseconds ([Timedelta]); [None] is [NaT]. *)
Record row : Type := {
  order_id : string;
  wait_time : option Z;
  expected_wait_time : option Z;
  delay_vs_expected : Z;
  order_status : string
}.
End WaitTime.

Module ReviewScore.
Record row : Type := {
  order_id : string;
  dim_is_five_star : Z;
  dim_is_one_star : Z;
  review_score : option Z
}.
End ReviewScore.

Module NumberProducts.
Record row : Type := {
  order_id : string;
  number_of_products : Z
}.
End NumberProducts.

Module NumberSellers.
Record row : Type := {
  order_id : string;
  number_of_sellers : nat
}.
End NumberSellers.

Module PriceFreight.
Record row : Type := {
  order_id : string;
  price : float;
  freight_value : float
}.
End PriceFreight.

Module Distance.
Record row : Type := {
  order_id : string;
  distance_seller_customer : float
}.
End Distance.

(** Tables built on the way to the distance table. *)

Module SellersGeo.
Record row : Type := {
  seller_id : string;
  seller_zip_code_prefix : Z;
  geolocation_lat : float;
  geolocation_lng : float
}.
End SellersGeo.

Module CustomersGeo.
Record row : Type := {
  customer_id : string;
  customer_zip_code_prefix : Z;
  geolocation_lat : float;
  geolocation_lng : float
}.
End CustomersGeo.

Module OrdersCustomersSellers.
(** [seller_id] is missing for an order without item (left join) and for
    an item without seller. *)
Record row : Type := {
  order_id : string;
  customer_id : string;
  seller_id : option string
}.
End OrdersCustomersSellers.

Module OrdersCustomersSellersGeo.
Record row : Type := {
  order_id : string;
  customer_id : string;
  seller_id : option string;
  seller_zip_code_prefix : Z;
  geolocation_lat_seller : float;
  geolocation_lng_seller : float;
  customer_zip_code_prefix : Z;
  geolocation_lat_customer : float;
  geolocation_lng_customer : float
}.
End OrdersCustomersSellersGeo.

(** A row of the training set: the columns of the five merged feature
    tables, and those of the distance table when it was merged. *)
Definition training_row : Type :=
  WaitTime.row * ReviewScore.row * NumberProducts.row * NumberSellers.row
  * PriceFreight.row * option Distance.row.

Definition tr_wait (t : training_row) : WaitTime.row := t.1.1.1.1.1.
Definition tr_review (t : training_row) : ReviewScore.row := t.1.1.1.1.2.
Definition tr_price (t : training_row) : PriceFreight.row := t.1.2.
Definition tr_distance (t : training_row) : option Distance.row := t.2.

(** No cell of the row is missing: what [DataFrame.dropna()] keeps.  The
    columns left out ([order_id], [order_status], the indicators, the
    counts, [delay_vs_expected]) cannot hold a missing cell. *)
Definition training_notna (t : training_row) : Prop :=
  is_Some (WaitTime.wait_time (tr_wait t))
  ∧ is_Some (WaitTime.expected_wait_time (tr_wait t))
  ∧ is_Some (ReviewScore.review_score (tr_review t))
  ∧ notna_float (PriceFreight.price (tr_price t))
  ∧ notna_float (PriceFreight.freight_value (tr_price t))
  ∧ from_option (notna_float ∘ Distance.distance_seller_customer) True
      (tr_distance t).

#[global] Instance training_notna_dec t : Decision (training_notna t).
Proof.
  unfold training_notna, notna_float.
  destruct (tr_distance t); simpl; apply _.
Defined.

Definition geo_notna (g : OrdersCustomersSellersGeo.row) : Prop :=
  is_Some (OrdersCustomersSellersGeo.seller_id g)
  ∧ notna_float (OrdersCustomersSellersGeo.geolocation_lat_seller g)
  ∧ notna_float (OrdersCustomersSellersGeo.geolocation_lng_seller g)
  ∧ notna_float (OrdersCustomersSellersGeo.geolocation_lat_customer g)
  ∧ notna_float (OrdersCustomersSellersGeo.geolocation_lng_customer g).

#[global] Instance geo_notna_dec g : Decision (geo_notna g).
Proof. unfold geo_notna, notna_float. apply _. Defined.

(** ** Timestamps *)

Definition ns_per_day : Z := 86400000000000.

(** Difference of two timestamps; [NaT] when either is. *)
Definition timedelta (a b : option Z) : option Z :=
  x ← a; y ← b; Some (x - y).

(** [Series.dt.days]: the day component of a duration, rounded down. *)
Definition dt_days (d : option Z) : option Z :=
  (λ ns, ns `div` ns_per_day) <$> d.

(** [lambda x: x if x > 0 else 0]; the comparison is false on [NaN]. *)
Definition clamp_delay (x : option Z) : Z :=
  match x with
  | Some v => if bool_decide (v > 0) then v else 0
  | None => 0
  end.

(** [GroupBy.first()] on a float column: the first cell that is not
    missing, [nan] if there is none. *)
Definition first_notna (l : list float) : float :=
  default PrimFloat.nan (head (filter notna_float l)).

(** ** The feature builder: class [Order] *)

Section Order.

(** [pd.to_datetime] on a column of cells: the column of the timestamps,
    in nanoseconds since the epoch with [None] for [NaT], or the exception
    raised.  The argument is the whole column, since pandas settles how
    the cells are read once for a column (the format is inferred from its
    first cell that is not missing). *)
Variable to_datetime : list (option string) → result (list (option Z)).

(** [olist.utils.haversine_distance (lon1, lat1, lon2, lat2)], whose
    source is not part of the modelled files. *)
Variable haversine_distance : float → float → float → float → float.

(** Lines 30 to 35 of [order.py] on one row, from its three parsed
    timestamps. *)
Definition wait_time_row (o : Orders.row)
    (purchase delivered estimated : option Z) : WaitTime.row :=
  {| WaitTime.order_id := Orders.order_id o;
     WaitTime.wait_time := timedelta delivered purchase;
     WaitTime.expected_wait_time := timedelta estimated purchase;
     WaitTime.delay_vs_expected :=
       clamp_delay (dt_days (timedelta delivered estimated));
     WaitTime.order_status := Orders.order_status o |}.

(** [Order.get_wait_time]: the status filter of line 24 does not look at
    [is_delivered]; the five date columns of the rows kept are parsed one
    after the other (lines 27 and 28), the first failure being raised, and
    the three new columns are computed row by row from the parsed ones
    ([pd.to_datetime] gives a column as long as its argument). *)
Definition get_wait_time (d : data) (is_delivered : bool)
    : result (list WaitTime.row) :=
  let orders := filter (λ o, Orders.order_status o = "delivered") (orders d) in
  purchase ← to_datetime (Orders.order_purchase_timestamp <$> orders);
  _ ← to_datetime (Orders.order_approved_at <$> orders);
  _ ← to_datetime (Orders.order_delivered_carrier_date <$> orders);
  delivered ← to_datetime (Orders.order_delivered_customer_date <$> orders);
  estimated ← to_datetime (Orders.order_estimated_delivery_date <$> orders);
  Ok (zip_with (λ o ts, wait_time_row o ts.1.1 ts.1.2 ts.2)
        orders (zip (zip purchase delivered) estimated)).

Definition review_score_row (r : OrderReviews.row) : ReviewScore.row :=
  {| ReviewScore.order_id := OrderReviews.order_id r;
     ReviewScore.dim_is_five_star :=
       if bool_decide (OrderReviews.review_score r = Some 5) then 1 else 0;
     ReviewScore.dim_is_one_star :=
       if bool_decide (OrderReviews.review_score r = Some 1) then 1 else 0;
     ReviewScore.review_score := OrderReviews.review_score r |}.

(** [Order.get_review_score] *)
Definition get_review_score (d : data) : list ReviewScore.row :=
  review_score_row <$> order_reviews d.

(** [Order.get_number_products] *)
Definition get_number_products (d : data) : list NumberProducts.row :=
  (λ g, {| NumberProducts.order_id := g.1;
           NumberProducts.number_of_products :=
             sum_int (OrderItems.order_item_id <$> g.2) |})
    <$> groupby String.le OrderItems.order_id (order_items d).

(** [Order.get_number_sellers] *)
Definition get_number_sellers (d : data) : list NumberSellers.row :=
  (λ g, {| NumberSellers.order_id := g.1;
           NumberSellers.number_of_sellers :=
             nunique (OrderItems.seller_id <$> g.2) |})
    <$> groupby String.le OrderItems.order_id (order_items d).

(** [Order.get_price_and_freight] *)
Definition get_price_and_freight (d : data) : list PriceFreight.row :=
  (λ g, {| PriceFreight.order_id := g.1;
           PriceFreight.price := sum_skipna (OrderItems.price <$> g.2);
           PriceFreight.freight_value :=
             sum_skipna (OrderItems.freight_value <$> g.2) |})
    <$> groupby String.le OrderItems.order_id (order_items d).

(** [Order.get_distance_seller_customer] *)
Definition get_distance_seller_customer (d : data) : list Distance.row :=
  let geolocation :=
    (λ g, {| Geolocation.geolocation_zip_code_prefix := g.1;
             Geolocation.geolocation_lat :=
               first_notna (Geolocation.geolocation_lat <$> g.2);
             Geolocation.geolocation_lng :=
               first_notna (Geolocation.geolocation_lng <$> g.2) |})
      <$> groupby Z.le Geolocation.geolocation_zip_code_prefix
            (geolocation d) in
  let sellers_geo :=
    merge_left Sellers.seller_zip_code_prefix
      Geolocation.geolocation_zip_code_prefix
      (λ s g,
         {| SellersGeo.seller_id := Sellers.seller_id s;
            SellersGeo.seller_zip_code_prefix :=
              Sellers.seller_zip_code_prefix s;
            SellersGeo.geolocation_lat :=
              from_option Geolocation.geolocation_lat PrimFloat.nan g;
            SellersGeo.geolocation_lng :=
              from_option Geolocation.geolocation_lng PrimFloat.nan g |})
      (sellers d) geolocation in
  let customers_geo :=
    merge_left Customers.customer_zip_code_prefix
      Geolocation.geolocation_zip_code_prefix
      (λ c g,
         {| CustomersGeo.customer_id := Customers.customer_id c;
            CustomersGeo.customer_zip_code_prefix :=
              Customers.customer_zip_code_prefix c;
            CustomersGeo.geolocation_lat :=
              from_option Geolocation.geolocation_lat PrimFloat.nan g;
            CustomersGeo.geolocation_lng :=
              from_option Geolocation.geolocation_lng PrimFloat.nan g |})
      (customers d) geolocation in
  let orders_customers_sellers :=
    merge_left Orders.order_id OrderItems.order_id
      (λ o i,
         {| OrdersCustomersSellers.order_id := Orders.order_id o;
            OrdersCustomersSellers.customer_id := Orders.customer_id o;
            OrdersCustomersSellers.seller_id := i ≫= OrderItems.seller_id |})
      (orders d) (order_items d) in
  let orders_customers_sellers_geo :=
    merge_inner (λ x, OrdersCustomersSellers.customer_id x.1)
      CustomersGeo.customer_id
      (λ x c,
         {| OrdersCustomersSellersGeo.order_id :=
              OrdersCustomersSellers.order_id x.1;
            OrdersCustomersSellersGeo.customer_id :=
              OrdersCustomersSellers.customer_id x.1;
            OrdersCustomersSellersGeo.seller_id :=
              OrdersCustomersSellers.seller_id x.1;
            OrdersCustomersSellersGeo.seller_zip_code_prefix :=
              SellersGeo.seller_zip_code_prefix x.2;
            OrdersCustomersSellersGeo.geolocation_lat_seller :=
              SellersGeo.geolocation_lat x.2;
            OrdersCustomersSellersGeo.geolocation_lng_seller :=
              SellersGeo.geolocation_lng x.2;
            OrdersCustomersSellersGeo.customer_zip_code_prefix :=
              CustomersGeo.customer_zip_code_prefix c;
            OrdersCustomersSellersGeo.geolocation_lat_customer :=
              CustomersGeo.geolocation_lat c;
            OrdersCustomersSellersGeo.geolocation_lng_customer :=
              CustomersGeo.geolocation_lng c |})
      (merge_inner OrdersCustomersSellers.seller_id
         (Some ∘ SellersGeo.seller_id) pair
         orders_customers_sellers sellers_geo)
      customers_geo in
  let orders_customers_sellers_geo :=
    filter geo_notna orders_customers_sellers_geo in
  let distance_seller_customer :=
    (λ row,
       (OrdersCustomersSellersGeo.order_id row,
        haversine_distance
          (OrdersCustomersSellersGeo.geolocation_lng_seller row)
          (OrdersCustomersSellersGeo.geolocation_lat_seller row)
          (OrdersCustomersSellersGeo.geolocation_lng_customer row)
          (OrdersCustomersSellersGeo.geolocation_lat_customer row)))
      <$> orders_customers_sellers_geo in
  (λ g, {| Distance.order_id := g.1;
           Distance.distance_seller_customer := mean_skipna (snd <$> g.2) |})
    <$> groupby String.le fst distance_seller_customer.

(** [Order.get_training_data] *)
Definition get_training_data (d : data)
    (is_delivered with_distance_seller_customer : bool)
    : result (list training_row) :=
  wait_time ← get_wait_time d is_delivered;
  let training_set :=
    merge_inner (λ t, WaitTime.order_id t.1.1.1) PriceFreight.order_id pair
      (merge_inner (λ t, WaitTime.order_id t.1.1) NumberSellers.order_id pair
         (merge_inner (λ t, WaitTime.order_id t.1) NumberProducts.order_id
            pair
            (merge_inner WaitTime.order_id ReviewScore.order_id pair
               wait_time (get_review_score d))
            (get_number_products d))
         (get_number_sellers d))
      (get_price_and_freight d) in
  let training_set :=
    if with_distance_seller_customer
    then merge_inner (λ t, WaitTime.order_id t.1.1.1.1) Distance.order_id
           (λ t dist, (t, Some dist))
           training_set (get_distance_seller_customer d)
    else (λ t, (t, None)) <$> training_set in
  Ok (filter training_notna training_set).

End Order.

(** ** The loader: class [Olist] *)

(** [sub in s] on Python strings. *)
Fixpoint contains (sub s : string) : bool :=
  String.prefix sub s
  || match s with
     | EmptyString => false
     | String _ s' => contains sub s'
     end.

(** [s.replace("", new)]: [new] before every character and at the end. *)
Fixpoint insert_between (new s : string) : string :=
  match s with
  | EmptyString => new
  | String c s' => new +:+ String c (insert_between new s')
  end.

(** [s.replace(old, new)] for a non-empty [old], scanning left to right;
    [skip] counts the characters of a replaced occurrence still to pass. *)
Fixpoint replace_from (old new : string) (skip : nat) (s : string) : string :=
  match s with
  | EmptyString => EmptyString
  | String c s' =>
      match skip with
      | S k => replace_from old new k s'
      | O =>
          if String.prefix old s
          then new +:+ replace_from old new (String.length old - 1) s'
          else String c (replace_from old new 0 s')
      end
  end.

(** [s.replace(old, new)]: every occurrence of [old], none overlapping. *)
Definition replace (old new s : string) : string :=
  match old with
  | EmptyString => insert_between new s
  | _ => replace_from old new 0 s
  end.

(** [os.path.join(a, b)] on a POSIX system. *)
Definition path_join (a b : string) : string :=
  if String.prefix "/" b then b
  else if bool_decide (a = "") || String.prefix "/" (String.rev a) then a +:+ b
  else a +:+ "/" +:+ b.

(** What the loader asks of the file system, in the order it asks. *)
Inductive event : Set :=
  | Listdir (path : string)
  | ReadCsv (path : string).

#[global] Instance event_eq_dec : EqDecision event.
Proof. solve_decision. Defined.

(** A computation that may raise and that extends the trace of the calls
    made so far. *)
Definition io (A : Type) : Type := list event → result A * list event.

Definition io_ret {A} (a : A) : io A := λ tr, (Ok a, tr).

Definition io_bind {A B} (m : io A) (f : A → io B) : io B := λ tr,
  match m tr with
  | (Ok a, tr') => f a tr'
  | (Raise e, tr') => (Raise e, tr')
  end.

Notation "x ←io m ; k" := (io_bind m (λ x, k))
  (at level 20, m at level 100, k at level 200, only parsing).

Section Olist.

(** The table type of pandas, as [pd.read_csv] builds it. *)
Variable DataFrame : Type.

(** The file system at the time of the call: the names [os.listdir]
    finds in a directory ([None] when the directory is missing or cannot
    be read) and what [pd.read_csv] makes of the file at a path. *)
Variable listdir : string → option (list string).
Variable read_csv : string → result DataFrame.

Definition os_listdir (path : string) : io (list string) := λ tr,
  (from_option Ok (Raise FileAccessError) (listdir path),
   tr ++ [Listdir path]).

Definition pd_read_csv (path : string) : io DataFrame := λ tr,
  (read_csv path, tr ++ [ReadCsv path]).

(** The loop of lines 22 and 23 of [data.py]. *)
Fixpoint load_files (csv_path : string) (l : list (string * string))
    (data : gmap string DataFrame) : io (gmap string DataFrame) :=
  match l with
  | [] => io_ret data
  | (key, file) :: l' =>
      df ←io pd_read_csv (path_join csv_path file);
      load_files csv_path l' (<[key := df]> data)
  end.

(** [Olist.get_data], in a module whose [__file__] is [file]. *)
Definition get_data (file : string) : io (gmap string DataFrame) :=
  let csv_path := replace "/olist/data.py" "/data/csv" file in
  names ←io os_listdir csv_path;
  let file_names := filter (λ file, contains ".csv" file = true) names in
  let key_names :=
    (λ name, replace ".csv" ""
               (replace "_dataset.csv" "" (replace "olist_" "" name)))
      <$> file_names in
  load_files csv_path (zip key_names file_names) ∅.

End Olist.

(** ** The haversine distance *)

Module Utils.
Local Open Scope R_scope.

Definition earth_radius : R := 6371.

Definition radians (deg : R) : R := deg * PI / 180.

(** The term under the square root, on angles in radians. *)
Definition haversine_a (lon1 lat1 lon2 lat2 : R) : R :=
  let dlon := lon2 - lon1 in
  let dlat := lat2 - lat1 in
  (sin (dlat / 2))² + cos lat1 * cos lat2 * (sin (dlon / 2))².

(** Modelled from the spec: [olist.utils.haversine_distance], imported by
    [order.py] and absent from the modelled files.  The formula of the
    specification, on real numbers: degrees to radians, then
    [2 * R * asin (sqrt a)] in kilometers. *)
Definition haversine_distance (lon1 lat1 lon2 lat2 : R) : R :=
  2 * earth_radius
  * asin (sqrt (haversine_a (radians lon1) (radians lat1)
                            (radians lon2) (radians lat2))).
End Utils.

(** ** Sample inputs *)

(** An instance of [to_datetime] for columns in the format of the
    timestamps in the Olist csv files, [YYYY-MM-DD HH:MM:SS], read as
    UTC. *)

Definition digit (c : ascii) : option Z :=
  let n := Z.of_N (N_of_ascii c) in
  if bool_decide (48 ≤ n ≤ 57) then Some (n - 48) else None.

Fixpoint number_from (acc : Z) (s : string) : option Z :=
  match s with
  | EmptyString => Some acc
  | String c s' => d ← digit c; number_from (10 * acc + d) s'
  end.

Definition number (s : string) : option Z :=
  match s with
  | EmptyString => None
  | _ => number_from 0 s
  end.

Definition is_leap (y : Z) : bool :=
  bool_decide (y `mod` 4 = 0) && (bool_decide (y `mod` 100 ≠ 0)
                                  || bool_decide (y `mod` 400 = 0)).

Definition days_in_month (y m : Z) : Z :=
  if bool_decide (m = 2) then (if is_leap y then 29 else 28)
  else if bool_decide (m ∈ [4; 6; 9; 11]) then 30
  else 31.

(** Days from 1970-01-01 to the given date of the Gregorian calendar. *)
Definition days_from_civil (y m d : Z) : Z :=
  let y := if bool_decide (m ≤ 2) then y - 1 else y in
  let era := y `div` 400 in
  let yoe := y - era * 400 in
  let mp := (m + 9) `mod` 12 in
  let doy := (153 * mp + 2) `div` 5 + d - 1 in
  let doe := yoe * 365 + yoe `div` 4 - yoe `div` 100 + doy in
  era * 146097 + doe - 719468.

Definition iso_timestamp (s : string) : option Z :=
  if bool_decide (String.length s = 19%nat
                  ∧ substring 4 1 s = "-" ∧ substring 7 1 s = "-"
                  ∧ substring 10 1 s = " "
                  ∧ substring 13 1 s = ":" ∧ substring 16 1 s = ":")
  then
    y ← number (substring 0 4 s);
    m ← number (substring 5 2 s);
    d ← number (substring 8 2 s);
    hh ← number (substring 11 2 s);
    mm ← number (substring 14 2 s);
    ss ← number (substring 17 2 s);
    if bool_decide (1 ≤ m ≤ 12 ∧ 1 ≤ d ≤ days_in_month y m
                    ∧ hh < 24 ∧ mm < 60 ∧ ss < 60)
    then Some ((((days_from_civil y m d * 24 + hh) * 60 + mm) * 60 + ss)
               * 1000000000)
    else None
  else None.

(** A column in that format: a missing cell gives [NaT], and a cell in
    another format makes the call raise. *)
Definition iso_datetime (col : list (option string))
    : result (list (option Z)) :=
  mapM (λ c, match c with
             | None => Ok None
             | Some s =>
                 match iso_timestamp s with
                 | Some t => Ok (Some t)
                 | None => Raise ValueError
                 end
             end) col.

Definition delivered_order (id customer : string)
    (purchase delivered estimated : string) : Orders.row :=
  {| Orders.order_id := id;
     Orders.customer_id := customer;
     Orders.order_status := "delivered";
     Orders.order_purchase_timestamp := Some purchase;
     Orders.order_approved_at := Some purchase;
     Orders.order_delivered_carrier_date := Some purchase;
     Orders.order_delivered_customer_date := Some delivered;
     Orders.order_estimated_delivery_date := Some estimated |}.

Definition item (id : string) (n : Z) (seller : string) (price freight : float)
    : OrderItems.row :=
  {| OrderItems.order_id := id;
     OrderItems.order_item_id := n;
     OrderItems.seller_id := Some seller;
     OrderItems.price := price;
     OrderItems.freight_value := freight |}.

Definition review (id : string) (score : Z) : OrderReviews.row :=
  {| OrderReviews.order_id := id; OrderReviews.review_score := Some score |}.

(** Five delivered orders; [o5] has no review, and [o1] has two items
    priced 10.0 and 5.5 with freight 2.0 and 1.0. *)
Definition five_orders : data :=
  {| orders :=
       [ delivered_order "o1" "c1" "2018-01-01 10:00:00"
           "2018-01-09 12:30:00" "2018-01-20 00:00:00";
         delivered_order "o2" "c2" "2018-01-02 08:15:00"
           "2018-01-25 09:00:00" "2018-01-22 00:00:00";
         delivered_order "o3" "c3" "2018-02-10 19:45:10"
           "2018-02-14 07:00:00" "2018-03-01 00:00:00";
         delivered_order "o4" "c1" "2018-02-27 23:59:59"
           "2018-03-05 16:20:00" "2018-03-05 00:00:00";
         delivered_order "o5" "c2" "2018-03-03 11:11:11"
           "2018-03-08 10:00:00" "2018-03-15 00:00:00" ];
     order_reviews :=
       [ review "o1" 5; review "o2" 1; review "o3" 4; review "o4" 3 ];
     order_items :=
       [ item "o1" 1 "s1" 10.0 2.0; item "o1" 2 "s2" 5.5 1.0;
         item "o2" 1 "s1" 99.5 15.25;
         item "o3" 1 "s2" 20.0 8.0; item "o3" 2 "s2" 20.0 8.0;
         item "o3" 3 "s2" 7.25 0.0;
         item "o4" 1 "s1" 45.0 12.5;
         item "o5" 1 "s2" 13.0 3.5 ];
     sellers :=
       [ {| Sellers.seller_id := "s1"; Sellers.seller_zip_code_prefix := 13023 |};
         {| Sellers.seller_id := "s2"; Sellers.seller_zip_code_prefix := 4195 |} ];
     customers :=
       [ {| Customers.customer_id := "c1";
            Customers.customer_zip_code_prefix := 4195 |};
         {| Customers.customer_id := "c2";
            Customers.customer_zip_code_prefix := 99999 |};
         {| Customers.customer_id := "c3";
            Customers.customer_zip_code_prefix := 13023 |} ];
     geolocation :=
       [ {| Geolocation.geolocation_zip_code_prefix := 13023;
            Geolocation.geolocation_lat := (-22.5)%float;
            Geolocation.geolocation_lng := (-47.25)%float |};
         {| Geolocation.geolocation_zip_code_prefix := 4195;
            Geolocation.geolocation_lat := (-23.625)%float;
            Geolocation.geolocation_lng := (-46.5)%float |};
         {| Geolocation.geolocation_zip_code_prefix := 13023;
            Geolocation.geolocation_lat := (-22.75)%float;
            Geolocation.geolocation_lng := (-47.125)%float |} ] |}.

(** One order that was shipped and not yet delivered. *)
Definition shipped_order : data :=
  {| orders :=
       [ {| Orders.order_id := "o6";
            Orders.customer_id := "c1";
            Orders.order_status := "shipped";
            Orders.order_purchase_timestamp := Some "2018-04-01 09:00:00";
            Orders.order_approved_at := Some "2018-04-01 09:30:00";
            Orders.order_delivered_carrier_date := Some "2018-04-02 14:00:00";
            Orders.order_delivered_customer_date := None;
            Orders.order_estimated_delivery_date :=
              Some "2018-04-20 00:00:00" |} ];
     order_reviews := []; order_items := [];
     sellers := []; customers := []; geolocation := [] |}.

(** One delivered order whose approval timestamp is missing. *)
Definition unapproved_order : Orders.row :=
  {| Orders.order_id := "o7";
     Orders.customer_id := "c1";
     Orders.order_status := "delivered";
     Orders.order_purchase_timestamp := Some "2018-05-01 09:00:00";
     Orders.order_approved_at := None;
     Orders.order_delivered_carrier_date := Some "2018-05-02 14:00:00";
     Orders.order_delivered_customer_date := Some "2018-05-07 18:00:00";
     Orders.order_estimated_delivery_date := Some "2018-05-20 00:00:00" |}.

(** One order marked delivered whose customer-delivery timestamp is
    missing. *)
Definition undated_order : Orders.row :=
  {| Orders.order_id := "o8";
     Orders.customer_id := "c2";
     Orders.order_status := "delivered";
     Orders.order_purchase_timestamp := Some "2018-05-03 15:00:00";
     Orders.order_approved_at := Some "2018-05-03 15:10:00";
     Orders.order_delivered_carrier_date := Some "2018-05-04 11:00:00";
     Orders.order_delivered_customer_date := None;
     Orders.order_estimated_delivery_date := Some "2018-05-25 00:00:00" |}.

Definition missing_timestamps : data :=
  {| orders := [unapproved_order; undated_order];
     order_reviews := [review "o7" 5; review "o8" 2];
     order_items := [item "o7" 1 "s1" 30.0 4.0; item "o8" 1 "s1" 12.0 4.0];
     sellers := []; customers := []; geolocation := [] |}.


(** A file system for a loader installed at [/home/user/olist/data.py]:
    the directory [/home/user/data/csv] holds two csv files and a text
    file, and no other directory exists. *)
Definition sample_listdir (path : string) : option (list string) :=
  if bool_decide (path = "/home/user/data/csv")
  then Some ["olist_orders_dataset.csv"; "notes.txt"; "sellers.csv"]
  else None.

(** Every file can be read; the table is stood for by the path read. *)
Definition readable_files (path : string) : result string := Ok path.

(** The files are there and cannot be opened (no read permission). *)
Definition unreadable_files (path : string) : result string :=
  Raise FileAccessError.

(** The wait-time table of [five_orders]. *)
Definition five_orders_wait_time : list WaitTime.row :=
  Eval vm_compute in
    match get_wait_time iso_datetime five_orders true with
    | Ok t => t
    | Raise _ => []
    end.

(** ** Vocabulary of the statements *)


Definition is_delivered_order (o : Orders.row) : Prop :=
  Orders.order_status o = "delivered".

(** The rows [get_wait_time] keeps at line 24. *)
Definition delivered_orders (d : data) : list Orders.row :=
  filter is_delivered_order (orders d).

(** [pd.to_datetime] returns on the column, with [NaT] at the missing
    cells and nowhere else. *)
Definition column_parses
    (to_datetime : list (option string) → result (list (option Z)))
    (col : list (option string)) : Prop :=
  match to_datetime col with
  | Ok ts => Forall2 (λ c t, c = None ↔ t = None) col ts
  | Raise _ => False
  end.

#[global] Instance column_parses_dec to_datetime col :
  Decision (column_parses to_datetime col).
Proof. unfold column_parses. destruct (to_datetime col); apply _. Defined.

(** Each of the five date columns of the delivered orders is parsed: the
    tables on which [pd.to_datetime] has nothing to reject. *)
Definition dates_parse
    (to_datetime : list (option string) → result (list (option Z)))
    (d : data) : Prop :=
  Forall (λ column, column_parses to_datetime (column <$> delivered_orders d))
    [ Orders.order_purchase_timestamp;
      Orders.order_approved_at;
      Orders.order_delivered_carrier_date;
      Orders.order_delivered_customer_date;
      Orders.order_estimated_delivery_date ].

#[global] Instance dates_parse_dec to_datetime d :
  Decision (dates_parse to_datetime d).
Proof. unfold dates_parse. apply _. Defined.

(** The row [r] of the wait-time table is the one of the order [o], for
    timestamps that are [NaT] exactly where the cells of [o] are
    missing. *)
Definition wait_time_of (o : Orders.row) (r : WaitTime.row) : Prop :=
  ∃ purchase delivered estimated,
    (Orders.order_purchase_timestamp o = None ↔ purchase = None)
    ∧ (Orders.order_delivered_customer_date o = None ↔ delivered = None)
    ∧ (Orders.order_estimated_delivery_date o = None ↔ estimated = None)
    ∧ r = wait_time_row o purchase delivered estimated.

(** The sum of integers, without bound. *)
Definition exact_sum (l : list Z) : Z := foldr Z.add 0 l.

(** The tables hold what the training set needs: for every delivered
    order the three timestamps behind the durations and an item, at most
    one review per order and a score in each, and no price or freight
    total that is [nan]. *)
Definition complete_tables (d : data) : Prop :=
  Forall (λ o, is_delivered_order o →
               is_Some (Orders.order_purchase_timestamp o)
               ∧ is_Some (Orders.order_delivered_customer_date o)
               ∧ is_Some (Orders.order_estimated_delivery_date o)
               ∧ Orders.order_id o ∈ OrderItems.order_id <$> order_items d)
    (orders d)
  ∧ NoDup (OrderReviews.order_id <$> order_reviews d)
  ∧ Forall (λ r, is_Some (OrderReviews.review_score r)) (order_reviews d)
  ∧ Forall (λ p, notna_float (PriceFreight.price p)
                 ∧ notna_float (PriceFreight.freight_value p))
      (get_price_and_freight d).

#[global] Instance complete_tables_dec d : Decision (complete_tables d).
Proof. unfold complete_tables, is_delivered_order, notna_float. apply _. Defined.

(** The delivered orders that have a review. *)
Definition reviewed_orders (d : data) : list Orders.row :=
  filter (λ o, Orders.order_id o ∈ OrderReviews.order_id <$> order_reviews d)
    (filter is_delivered_order (orders d)).


(** Line 18 of [data.py]: the directory [get_data] lists. *)
Definition csv_path_of (file : string) : string :=
  replace "/olist/data.py" "/data/csv" file.

(** Line 19: the listed names [get_data] reads. *)
Definition csv_files (names : list string) : list string :=
  filter (λ file, contains ".csv" file = true) names.

(** Line 20: the key under which a file is stored. *)
Definition key_name (name : string) : string :=
  replace ".csv" "" (replace "_dataset.csv" "" (replace "olist_" "" name)).

(** The events of reading the given files of a directory, in order. *)
Definition reads (csv_path : string) (files : list string) : list event :=
  (λ f, ReadCsv (path_join csv_path f)) <$> files.

(** A directory in which two files are stored under the key [orders]. *)
Definition twice_listdir (path : string) : option (list string) :=
  if bool_decide (path = "/home/user/data/csv")
  then Some ["olist_orders_dataset.csv"; "sellers.csv"; "orders.csv"]
  else None.

(** The file [sellers.csv] cannot be parsed, the others can. *)
Definition corrupt_sellers (path : string) : result string :=
  if bool_decide (path = "/home/user/data/csv/sellers.csv")
  then Raise ParserError else Ok path.

(** As [complete_tables], but an order may have several reviews. *)
Definition complete_rows (d : data) : Prop :=
  Forall (λ o, is_delivered_order o →
               is_Some (Orders.order_purchase_timestamp o)
               ∧ is_Some (Orders.order_delivered_customer_date o)
               ∧ is_Some (Orders.order_estimated_delivery_date o)
               ∧ Orders.order_id o ∈ OrderItems.order_id <$> order_items d)
    (orders d)
  ∧ Forall (λ r, is_Some (OrderReviews.review_score r)) (order_reviews d)
  ∧ Forall (λ p, notna_float (PriceFreight.price p)
                 ∧ notna_float (PriceFreight.freight_value p))
      (get_price_and_freight d).

#[global] Instance complete_rows_dec d : Decision (complete_rows d).
Proof. unfold complete_rows, is_delivered_order, notna_float. apply _. Defined.


(** Two delivered orders, the first reviewed twice. *)
Definition twice_reviewed : data :=
  {| orders :=
       [ delivered_order "o1" "c1" "2018-01-01 10:00:00"
           "2018-01-09 12:30:00" "2018-01-20 00:00:00";
         delivered_order "o2" "c2" "2018-01-02 08:15:00"
           "2018-01-25 09:00:00" "2018-01-22 00:00:00" ];
     order_reviews := [ review "o1" 5; review "o2" 1; review "o1" 2 ];
     order_items := [ item "o1" 1 "s1" 10.0 2.0; item "o2" 1 "s1" 99.5 15.25 ];
     sellers := []; customers := []; geolocation := [] |}.




(** The tables of lines 96 to 111 of [order.py], as
    [get_distance_seller_customer] builds them. *)
Definition geolocation_first (d : data) : list Geolocation.row :=
  (λ g, {| Geolocation.geolocation_zip_code_prefix := g.1;
           Geolocation.geolocation_lat :=
             first_notna (Geolocation.geolocation_lat <$> g.2);
           Geolocation.geolocation_lng :=
             first_notna (Geolocation.geolocation_lng <$> g.2) |})
    <$> groupby Z.le Geolocation.geolocation_zip_code_prefix (geolocation d).

Definition sellers_geo (d : data) : list SellersGeo.row :=
  merge_left Sellers.seller_zip_code_prefix
    Geolocation.geolocation_zip_code_prefix
    (λ s g,
       {| SellersGeo.seller_id := Sellers.seller_id s;
          SellersGeo.seller_zip_code_prefix := Sellers.seller_zip_code_prefix s;
          SellersGeo.geolocation_lat :=
            from_option Geolocation.geolocation_lat PrimFloat.nan g;
          SellersGeo.geolocation_lng :=
            from_option Geolocation.geolocation_lng PrimFloat.nan g |})
    (sellers d) (geolocation_first d).

Definition customers_geo (d : data) : list CustomersGeo.row :=
  merge_left Customers.customer_zip_code_prefix
    Geolocation.geolocation_zip_code_prefix
    (λ c g,
       {| CustomersGeo.customer_id := Customers.customer_id c;
          CustomersGeo.customer_zip_code_prefix :=
            Customers.customer_zip_code_prefix c;
          CustomersGeo.geolocation_lat :=
            from_option Geolocation.geolocation_lat PrimFloat.nan g;
          CustomersGeo.geolocation_lng :=
            from_option Geolocation.geolocation_lng PrimFloat.nan g |})
    (customers d) (geolocation_first d).

Definition orders_customers_sellers (d : data)
    : list OrdersCustomersSellers.row :=
  merge_left Orders.order_id OrderItems.order_id
    (λ o i,
       {| OrdersCustomersSellers.order_id := Orders.order_id o;
          OrdersCustomersSellers.customer_id := Orders.customer_id o;
          OrdersCustomersSellers.seller_id := i ≫= OrderItems.seller_id |})
    (orders d) (order_items d).

Definition orders_customers_sellers_geo (d : data)
    : list OrdersCustomersSellersGeo.row :=
  filter geo_notna
    (merge_inner (λ x, OrdersCustomersSellers.customer_id x.1)
       CustomersGeo.customer_id
       (λ x c,
          {| OrdersCustomersSellersGeo.order_id :=
               OrdersCustomersSellers.order_id x.1;
             OrdersCustomersSellersGeo.customer_id :=
               OrdersCustomersSellers.customer_id x.1;
             OrdersCustomersSellersGeo.seller_id :=
               OrdersCustomersSellers.seller_id x.1;
             OrdersCustomersSellersGeo.seller_zip_code_prefix :=
               SellersGeo.seller_zip_code_prefix x.2;
             OrdersCustomersSellersGeo.geolocation_lat_seller :=
               SellersGeo.geolocation_lat x.2;
             OrdersCustomersSellersGeo.geolocation_lng_seller :=
               SellersGeo.geolocation_lng x.2;
             OrdersCustomersSellersGeo.customer_zip_code_prefix :=
               CustomersGeo.customer_zip_code_prefix c;
             OrdersCustomersSellersGeo.geolocation_lat_customer :=
               CustomersGeo.geolocation_lat c;
             OrdersCustomersSellersGeo.geolocation_lng_customer :=
               CustomersGeo.geolocation_lng c |})
       (merge_inner OrdersCustomersSellers.seller_id
          (Some ∘ SellersGeo.seller_id) pair
          (orders_customers_sellers d) (sellers_geo d))
       (customers_geo d)).

(** Two order rows that differ at most in the approval and the carrier
    timestamps. *)
Definition same_but_unused_dates (o o' : Orders.row) : Prop :=
  Orders.order_id o = Orders.order_id o'
  ∧ Orders.customer_id o = Orders.customer_id o'
  ∧ Orders.order_status o = Orders.order_status o'
  ∧ Orders.order_purchase_timestamp o = Orders.order_purchase_timestamp o'
  ∧ Orders.order_delivered_customer_date o
    = Orders.order_delivered_customer_date o'
  ∧ Orders.order_estimated_delivery_date o
    = Orders.order_estimated_delivery_date o'.

#[global] Instance same_but_unused_dates_dec o o' :
  Decision (same_but_unused_dates o o').
Proof. unfold same_but_unused_dates. apply _. Defined.

(** [missing_timestamps] with other approval and carrier timestamps. *)
Definition other_unused_dates : data :=
  {| orders :=
       [ {| Orders.order_id := "o7";
            Orders.customer_id := "c1";
            Orders.order_status := "delivered";
            Orders.order_purchase_timestamp := Some "2018-05-01 09:00:00";
            Orders.order_approved_at := Some "2018-05-01 09:10:00";
            Orders.order_delivered_carrier_date := None;
            Orders.order_delivered_customer_date :=
              Some "2018-05-07 18:00:00";
            Orders.order_estimated_delivery_date :=
              Some "2018-05-20 00:00:00" |};
         {| Orders.order_id := "o8";
            Orders.customer_id := "c2";
            Orders.order_status := "delivered";
            Orders.order_purchase_timestamp := Some "2018-05-03 15:00:00";
            Orders.order_approved_at := None;
            Orders.order_delivered_carrier_date :=
              Some "2018-05-05 08:00:00";
            Orders.order_delivered_customer_date := None;
            Orders.order_estimated_delivery_date :=
              Some "2018-05-25 00:00:00" |} ];
     order_reviews := order_reviews missing_timestamps;
     order_items := order_items missing_timestamps;
     sellers := []; customers := []; geolocation := [] |}.

(** * Properties *)

(** ** The table operations *)

Lemma elem_of_merge_inner {A B C K : Type} `{EqDecision K}
    (kl : A → K) (kr : B → K) (f : A → B → C) l r (c : C) :
  c ∈ merge_inner kl kr f l r ↔
  ∃ a b, a ∈ l ∧ b ∈ r ∧ kl a = kr b ∧ c = f a b.
Proof.
  unfold merge_inner. rewrite list_elem_of_bind. split.
  - intros (a & Hc & Ha). apply list_elem_of_fmap in Hc as (b & -> & Hb).
    apply list_elem_of_filter in Hb as [Hk Hb]. by exists a, b.
  - intros (a & b & Ha & Hb & Hk & ->). exists a. split; [|assumption].
    apply list_elem_of_fmap_2, list_elem_of_filter. by split.
Qed.

Lemma Forall_merge_inner {A B C K : Type} `{EqDecision K}
    (kl : A → K) (kr : B → K) (f : A → B → C) l r (P : C → Prop) :
  (∀ a b, a ∈ l → b ∈ r → kl a = kr b → P (f a b)) →
  Forall P (merge_inner kl kr f l r).
Proof.
  intros HP. apply Forall_forall. intros c Hc.
  apply elem_of_merge_inner in Hc as (a & b & Ha & Hb & Hk & ->). by apply HP.
Qed.

Lemma filter_all {A} (P : A → Prop) `{!∀ x, Decision (P x)} (l : list A) :
  Forall P l → filter P l = l.
Proof.
  induction 1 as [|x l Hx _ IH]; [reflexivity|].
  rewrite filter_cons_True by exact Hx. by rewrite IH.
Qed.

Lemma length_filter_fmap {A B} (f : A → B) (P : B → Prop)
    (HA : ∀ x, Decision (P (f x))) (HB : ∀ y, Decision (P y)) (l : list A) :
  length (filter (λ x, P (f x)) l) = length (filter P (f <$> l)).
Proof.
  induction l as [|x l IH]; [reflexivity|].
  rewrite fmap_cons, !filter_cons.
  destruct (decide (P (f x))), (decide (P (f x))); simpl; try lia; done.
Qed.

(** A key occurs at most once in a key column without duplicates. *)
Lemma length_filter_key {B K : Type} `{EqDecision K}
    (kr : B → K) (r : list B) (k : K) :
  NoDup (kr <$> r) →
  length (filter (λ b, k = kr b) r)
  = if decide (k ∈ kr <$> r) then 1%nat else 0%nat.
Proof.
  induction r as [|b r IH]; intros Hnd.
  - rewrite decide_False by apply not_elem_of_nil. reflexivity.
  - rewrite fmap_cons in Hnd. apply NoDup_cons in Hnd as [Hb Hnd].
    rewrite fmap_cons, filter_cons. specialize (IH Hnd).
    destruct (decide (k = kr b)) as [->|Hne]; simpl; rewrite IH.
    + rewrite (decide_False _ _ Hb).
      rewrite decide_True by apply list_elem_of_here. reflexivity.
    + destruct (decide (k ∈ kr <$> r)) as [Hin|Hnin].
      * rewrite decide_True by (by apply list_elem_of_further). reflexivity.
      * rewrite decide_False; [reflexivity|].
        by intros [?|?]%elem_of_cons.
Qed.

(** Rows of an inner join on a right key column without duplicates:
    one per left row whose key occurs on the right. *)
Lemma merge_inner_length {A B C K : Type} `{EqDecision K}
    (kl : A → K) (kr : B → K) (f : A → B → C) l r :
  NoDup (kr <$> r) →
  length (merge_inner kl kr f l r)
  = length (filter (λ a, kl a ∈ kr <$> r) l).
Proof.
  intros Hnd. unfold merge_inner.
  induction l as [|a l IH]; [reflexivity|].
  rewrite filter_cons, bind_cons, List.length_app, length_fmap, IH.
  rewrite (length_filter_key kr r (kl a) Hnd).
  destruct (decide (kl a ∈ kr <$> r)); reflexivity.
Qed.

Lemma merge_inner_length_total {A B C K : Type} `{EqDecision K}
    (kl : A → K) (kr : B → K) (f : A → B → C) l r :
  NoDup (kr <$> r) → Forall (λ a, kl a ∈ kr <$> r) l →
  length (merge_inner kl kr f l r) = length l.
Proof.
  intros Hnd Hl. rewrite merge_inner_length by exact Hnd.
  by rewrite filter_all.
Qed.

Section groupby.
Context {A K : Type} `{EqDecision K} (R : relation K) `{!RelDecision R}.
Context (key : A → K) (rows : list A).

Lemma elem_of_groupby (g : K * list A) :
  g ∈ groupby R key rows ↔
  g.1 ∈ key <$> rows ∧ g.2 = filter (λ r, key r = g.1) rows.
Proof.
  unfold groupby. rewrite list_elem_of_fmap. split.
  - intros (k & -> & Hk). simpl. split; [|reflexivity].
    rewrite merge_sort_Permutation in Hk. by apply elem_of_remove_dups.
  - destruct g as [k g]. simpl. intros [Hk ->]. exists k.
    split; [reflexivity|].
    rewrite merge_sort_Permutation. by apply elem_of_remove_dups.
Qed.

Lemma groupby_keys :
  fst <$> groupby R key rows = merge_sort R (remove_dups (key <$> rows)).
Proof.
  unfold groupby. rewrite <- list_fmap_compose.
  rewrite <- (list_fmap_id (merge_sort _ _)) at 2.
  apply list_fmap_ext. by intros.
Qed.

Lemma NoDup_groupby : NoDup (fst <$> groupby R key rows).
Proof.
  rewrite groupby_keys, merge_sort_Permutation. apply NoDup_remove_dups.
Qed.

Lemma elem_of_groupby_keys (k : K) :
  k ∈ fst <$> groupby R key rows ↔ k ∈ key <$> rows.
Proof.
  rewrite groupby_keys, merge_sort_Permutation. apply elem_of_remove_dups.
Qed.

Lemma groupby_sorted `{!Total R} : Sorted R (fst <$> groupby R key rows).
Proof. rewrite groupby_keys. by apply Sorted_merge_sort. Qed.
End groupby.

(** ** The wait-time derivation *)





(** The rows computed from columns that are [NaT] where the cells are
    missing. *)
Lemma wait_time_rows_of (os : list Orders.row)
    (purchase delivered estimated : list (option Z)) :
  Forall2 (λ c t, c = None ↔ t = None)
    (Orders.order_purchase_timestamp <$> os) purchase →
  Forall2 (λ c t, c = None ↔ t = None)
    (Orders.order_delivered_customer_date <$> os) delivered →
  Forall2 (λ c t, c = None ↔ t = None)
    (Orders.order_estimated_delivery_date <$> os) estimated →
  Forall2 wait_time_of os
    (zip_with (λ o ts, wait_time_row o ts.1.1 ts.1.2 ts.2)
       os (zip (zip purchase delivered) estimated)).
Proof.
  revert purchase delivered estimated.
  induction os as [|o os IH]; intros purchase delivered estimated Hp Hd He.
  - constructor.
  - rewrite fmap_cons in Hp, Hd, He.
    inversion Hp as [|? p ? ps Hp1 Hp2]; subst.
    inversion Hd as [|? dl ? dls Hd1 Hd2]; subst.
    inversion He as [|? es ? ess He1 He2]; subst.
    simpl. constructor; [|by apply IH].
    by exists p, dl, es.
Qed.

Section wait_time.
Context (to_datetime : list (option string) → result (list (option Z))).

Lemma get_wait_time_Ok d b t :
  get_wait_time to_datetime d b = Ok t ↔
  ∃ purchase approved carrier delivered estimated,
    to_datetime (Orders.order_purchase_timestamp <$> delivered_orders d)
    = Ok purchase
    ∧ to_datetime (Orders.order_approved_at <$> delivered_orders d)
      = Ok approved
    ∧ to_datetime (Orders.order_delivered_carrier_date <$> delivered_orders d)
      = Ok carrier
    ∧ to_datetime (Orders.order_delivered_customer_date <$> delivered_orders d)
      = Ok delivered
    ∧ to_datetime (Orders.order_estimated_delivery_date <$> delivered_orders d)
      = Ok estimated
    ∧ t = zip_with (λ o ts, wait_time_row o ts.1.1 ts.1.2 ts.2)
            (delivered_orders d) (zip (zip purchase delivered) estimated).
Proof.
  unfold get_wait_time, delivered_orders, is_delivered_order. split.
  - destruct (to_datetime (Orders.order_purchase_timestamp <$> _))
      as [purchase|]; simpl; [|discriminate].
    destruct (to_datetime (Orders.order_approved_at <$> _))
      as [approved|]; simpl; [|discriminate].
    destruct (to_datetime (Orders.order_delivered_carrier_date <$> _))
      as [carrier|]; simpl; [|discriminate].
    destruct (to_datetime (Orders.order_delivered_customer_date <$> _))
      as [delivered|]; simpl; [|discriminate].
    destruct (to_datetime (Orders.order_estimated_delivery_date <$> _))
      as [estimated|]; simpl; [|discriminate].
    intros [= <-]. by exists purchase, approved, carrier, delivered, estimated.
  - intros (purchase & approved & carrier & delivered & estimated
            & -> & -> & -> & -> & -> & ->).
    reflexivity.
Qed.

Lemma column_parses_Ok col :
  column_parses to_datetime col →
  ∃ ts, to_datetime col = Ok ts ∧ Forall2 (λ c t, c = None ↔ t = None) col ts.
Proof.
  unfold column_parses. destruct (to_datetime col) as [ts|]; [|done].
  by exists ts.
Qed.

Lemma get_wait_time_columns d b :
  dates_parse to_datetime d →
  ∃ purchase delivered estimated,
    to_datetime (Orders.order_purchase_timestamp <$> delivered_orders d)
    = Ok purchase
    ∧ to_datetime (Orders.order_delivered_customer_date <$> delivered_orders d)
      = Ok delivered
    ∧ to_datetime (Orders.order_estimated_delivery_date <$> delivered_orders d)
      = Ok estimated
    ∧ Forall2 (λ c t, c = None ↔ t = None)
        (Orders.order_purchase_timestamp <$> delivered_orders d) purchase
    ∧ Forall2 (λ c t, c = None ↔ t = None)
        (Orders.order_delivered_customer_date <$> delivered_orders d) delivered
    ∧ Forall2 (λ c t, c = None ↔ t = None)
        (Orders.order_estimated_delivery_date <$> delivered_orders d) estimated
    ∧ get_wait_time to_datetime d b
      = Ok (zip_with (λ o ts, wait_time_row o ts.1.1 ts.1.2 ts.2)
              (delivered_orders d) (zip (zip purchase delivered) estimated)).
Proof.
  unfold dates_parse. rewrite !Forall_cons.
  intros (H1 & H2 & H3 & H4 & H5 & _).
  apply column_parses_Ok in H1 as (purchase & H1 & Hp).
  apply column_parses_Ok in H2 as (approved & H2 & _).
  apply column_parses_Ok in H3 as (carrier & H3 & _).
  apply column_parses_Ok in H4 as (delivered & H4 & Hd).
  apply column_parses_Ok in H5 as (estimated & H5 & He).
  exists purchase, delivered, estimated. split_and!; try done.
  apply get_wait_time_Ok.
  by exists purchase, approved, carrier, delivered, estimated.
Qed.

Lemma get_wait_time_total d b :
  dates_parse to_datetime d → ∃ t, get_wait_time to_datetime d b = Ok t.
Proof.
  intros Hparse.
  destruct (get_wait_time_columns d b Hparse) as (? & ? & ? & H).
  eexists. apply H.
Qed.

Lemma get_wait_time_rows d b t :
  dates_parse to_datetime d →
  get_wait_time to_datetime d b = Ok t →
  Forall2 wait_time_of (delivered_orders d) t.
Proof.
  intros Hparse Ht.
  destruct (get_wait_time_columns d b Hparse)
    as (p & dl & es & _ & _ & _ & Hp & Hd & He & Ht').
  rewrite Ht in Ht'. injection Ht' as ->.
  by apply wait_time_rows_of.
Qed.

Lemma get_wait_time_delivered_only d b t :
  get_wait_time to_datetime d b = Ok t →
  Forall (λ r, WaitTime.order_status r = "delivered") t.
Proof.
  intros (p & a & c & dl & es & _ & _ & _ & _ & _ & ->)%get_wait_time_Ok.
  apply Forall_forall. intros r (o & ts & -> & Ho & _)%elem_of_zip_with.
  simpl. by apply list_elem_of_filter in Ho as [Ho _].
Qed.
End wait_time.

(** C1: [get_wait_time] is documented to filter out non-delivered orders
    unless told otherwise, so that with [is_delivered=False] orders of every
    status appear.  The code never reads the flag: whatever its value the
    result is the one for [is_delivered=True] and holds delivered orders
    only, and for a table holding one shipped order and
    [is_delivered=False] the result is empty. *)
Theorem get_wait_time_ignores_is_delivered :
  (∀ to_datetime d b,
     get_wait_time to_datetime d b = get_wait_time to_datetime d true)
  ∧ (∀ to_datetime d b t,
       get_wait_time to_datetime d b = Ok t →
       Forall (λ r, WaitTime.order_status r = "delivered") t)
  ∧ "shipped" ∈ Orders.order_status <$> orders shipped_order
  ∧ get_wait_time iso_datetime shipped_order false = Ok [].
Proof.
  split_and!; [reflexivity| | |reflexivity].
  - intros to_datetime d b t. apply get_wait_time_delivered_only.
  - apply list_elem_of_singleton. reflexivity.
Qed.



(** The order [o2] of [five_orders] came three days and nine hours after
    its estimate, [o4] sixteen hours after, [o1] eleven days before. *)
Example delay_vs_expected_five_orders :
  WaitTime.delay_vs_expected <$> five_orders_wait_time = [0; 3; 0; 0; 0].
Proof. reflexivity. Qed.

(** ** The tables grouped by order *)

(** The shape of the three aggregations of the order items: one row per
    [order_id] of the table, computed from the items of that order. *)
Lemma groupby_agg_spec {A B : Type} (key : A → string)
    (mk : string * list A → B) (id : B → string) (rows : list A) :
  (∀ g, id (mk g) = g.1) →
  NoDup (id <$> (mk <$> groupby String.le key rows))
  ∧ (∀ k, k ∈ id <$> (mk <$> groupby String.le key rows) ↔ k ∈ key <$> rows)
  ∧ Forall (λ row, row = mk (id row, filter (λ r, key r = id row) rows))
      (mk <$> groupby String.le key rows).
Proof.
  intros Hid.
  assert (Hkeys : id <$> (mk <$> groupby String.le key rows)
                  = fst <$> groupby String.le key rows).
  { rewrite <- list_fmap_compose. apply list_fmap_ext.
    intros _ g _. apply Hid. }
  rewrite Hkeys. split_and!.
  - apply NoDup_groupby.
  - intros k. apply elem_of_groupby_keys.
  - apply Forall_fmap, Forall_forall. intros [k g] Hg. simpl.
    apply elem_of_groupby in Hg as [_ Hg]. simpl in Hg.
    rewrite Hid. simpl. by rewrite <- Hg.
Qed.

Lemma groupby_agg_ids {A B : Type} (key : A → string)
    (mk : string * list A → B) (id : B → string) (rows : list A) :
  (∀ g, id (mk g) = g.1) →
  NoDup (id <$> (mk <$> groupby String.le key rows))
  ∧ (∀ k, k ∈ id <$> (mk <$> groupby String.le key rows) ↔ k ∈ key <$> rows).
Proof.
  intros Hid. destruct (groupby_agg_spec key mk id rows Hid) as (? & ? & _).
  by split.
Qed.

Lemma int64_wrap_range z : - 2 ^ 63 ≤ int64_wrap z < 2 ^ 63.
Proof.
  unfold int64_wrap.
  pose proof (Z.mod_pos_bound (z + 2 ^ 63) (2 ^ 64) eq_refl). lia.
Qed.

Lemma int64_wrap_congruent z : (int64_wrap z - z) `mod` 2 ^ 64 = 0.
Proof.
  unfold int64_wrap.
  rewrite (Z.mod_eq (z + 2 ^ 63) (2 ^ 64)) by done.
  replace (z + 2 ^ 63 - 2 ^ 64 * ((z + 2 ^ 63) `div` 2 ^ 64) - 2 ^ 63 - z)
    with (- ((z + 2 ^ 63) `div` 2 ^ 64) * 2 ^ 64) by lia.
  apply Z.mod_mul. done.
Qed.

Lemma int64_wrap_small z : - 2 ^ 63 ≤ z < 2 ^ 63 → int64_wrap z = z.
Proof.
  intros Hz. unfold int64_wrap. rewrite Z.mod_small; lia.
Qed.

Lemma int64_wrap_add a x : int64_wrap (int64_wrap a + x) = int64_wrap (a + x).
Proof.
  unfold int64_wrap. f_equal.
  replace ((a + 2 ^ 63) `mod` 2 ^ 64 - 2 ^ 63 + x + 2 ^ 63)
    with ((a + 2 ^ 63) `mod` 2 ^ 64 + x) by lia.
  rewrite Z.add_mod_idemp_l by done. f_equal. lia.
Qed.

Lemma foldl_int64_wrap a l :
  foldl (λ acc x, int64_wrap (acc + x)) (int64_wrap a) l
  = int64_wrap (a + exact_sum l).
Proof.
  revert a. induction l as [|y l IH]; intros a; simpl.
  - f_equal. lia.
  - rewrite int64_wrap_add, IH. f_equal. lia.
Qed.

(** The [int64] sum is the exact sum, wrapped once. *)
Lemma sum_int_wrap l : sum_int l = int64_wrap (exact_sum l).
Proof.
  unfold sum_int. rewrite <- (int64_wrap_small 0) at 1 by done.
  by rewrite foldl_int64_wrap.
Qed.

Lemma sum_int_exact l :
  - 2 ^ 63 ≤ exact_sum l < 2 ^ 63 → sum_int l = exact_sum l.
Proof. intros Hl. rewrite sum_int_wrap. by apply int64_wrap_small. Qed.

Lemma omap_fmap_cell {A B} (f : A → option B) (l : list A) :
  omap (λ cell, cell) (f <$> l) = omap f l.
Proof.
  induction l as [|x l IH]; [reflexivity|].
  simpl. destruct (f x); simpl; [f_equal|]; apply IH.
Qed.

Lemma length_omap_le {A B} (f : A → option B) (l : list A) :
  (length (omap f l) ≤ length l)%nat.
Proof.
  induction l as [|x l IH]; [reflexivity|].
  change (omap f (x :: l))
    with (match f x with Some y => y :: omap f l | None => omap f l end).
  destruct (f x); simpl; lia.
Qed.

Lemma length_remove_dups_le `{EqDecision A} (l : list A) :
  (length (remove_dups l) ≤ length l)%nat.
Proof.
  induction l as [|x l IH]; simpl; [lia|].
  destruct (decide_rel _ x l); simpl; lia.
Qed.

Lemma nunique_le `{EqDecision A} (l : list (option A)) :
  (nunique l ≤ length l)%nat.
Proof.
  unfold nunique. etrans; [apply length_remove_dups_le|apply length_omap_le].
Qed.

Lemma nunique_size `{Countable A} (l : list (option A)) :
  nunique l = size (list_to_set (omap (λ cell, cell) l) : gset A).
Proof.
  unfold nunique.
  rewrite <- (size_list_to_set (C:=gset A) (remove_dups _)).
  - f_equal. apply set_eq. intros x.
    by rewrite !elem_of_list_to_set, elem_of_remove_dups.
  - apply NoDup_remove_dups.
Qed.

Lemma get_number_products_ids d :
  NoDup (NumberProducts.order_id <$> get_number_products d)
  ∧ ∀ id, id ∈ NumberProducts.order_id <$> get_number_products d ↔
          id ∈ OrderItems.order_id <$> order_items d.
Proof.
  unfold get_number_products. by apply groupby_agg_ids.
Qed.

Lemma get_number_sellers_ids d :
  NoDup (NumberSellers.order_id <$> get_number_sellers d)
  ∧ ∀ id, id ∈ NumberSellers.order_id <$> get_number_sellers d ↔
          id ∈ OrderItems.order_id <$> order_items d.
Proof.
  unfold get_number_sellers. by apply groupby_agg_ids.
Qed.

Lemma get_price_and_freight_ids d :
  NoDup (PriceFreight.order_id <$> get_price_and_freight d)
  ∧ ∀ id, id ∈ PriceFreight.order_id <$> get_price_and_freight d ↔
          id ∈ OrderItems.order_id <$> order_items d.
Proof.
  unfold get_price_and_freight. by apply groupby_agg_ids.
Qed.

(** C4: [get_number_products] has one row per [order_id] of the order
    items, and its [number_of_products] is the sum of the [order_item_id]
    of the items of that order, not their number: the two items of order
    [o1], numbered 1 and 2, give 3.  The sum is the one of [int64]
    cells: the sum of the integers when that lies between [-2^63] and
    [2^63 - 1], and in general the integer of that range that differs
    from it by a multiple of [2^64]. *)
Theorem get_number_products_sums_item_ids :
  (∀ d,
     NoDup (NumberProducts.order_id <$> get_number_products d)
     ∧ (∀ id, id ∈ NumberProducts.order_id <$> get_number_products d ↔
              id ∈ OrderItems.order_id <$> order_items d)
     ∧ Forall (λ row,
          let ids := OrderItems.order_item_id
                       <$> filter (λ i, OrderItems.order_id i
                                        = NumberProducts.order_id row)
                             (order_items d) in
          (- 2 ^ 63 ≤ exact_sum ids < 2 ^ 63 →
           NumberProducts.number_of_products row = exact_sum ids)
          ∧ NumberProducts.number_of_products row = int64_wrap (exact_sum ids))
         (get_number_products d))
  ∧ (∀ x l, exact_sum [] = 0 ∧ exact_sum (x :: l) = x + exact_sum l)
  ∧ (∀ z, - 2 ^ 63 ≤ int64_wrap z < 2 ^ 63
          ∧ (int64_wrap z - z) `mod` 2 ^ 64 = 0)
  ∧ OrderItems.order_item_id
      <$> filter (λ i, OrderItems.order_id i = "o1") (order_items five_orders)
    = [1; 2]
  ∧ {| NumberProducts.order_id := "o1";
       NumberProducts.number_of_products := 3 |}
    ∈ get_number_products five_orders.
Proof.
  split_and!.
  - intros d. unfold get_number_products.
    destruct (groupby_agg_spec OrderItems.order_id
                (λ g, {| NumberProducts.order_id := g.1;
                         NumberProducts.number_of_products :=
                           sum_int (OrderItems.order_item_id <$> g.2) |})
                NumberProducts.order_id (order_items d))
      as (Hnd & Hk & Hrows); [done|].
    split_and!; [exact Hnd|exact Hk|].
    eapply Forall_impl; [exact Hrows|]. simpl. intros row ->. simpl.
    split; [apply sum_int_exact|apply sum_int_wrap].
  - intros x l. split; reflexivity.
  - intros z. split; [apply int64_wrap_range|apply int64_wrap_congruent].
  - reflexivity.
  - apply list_elem_of_In. vm_compute. tauto.
Qed.

(** C8: [get_number_sellers] has one row per [order_id] of the order
    items; its [number_of_sellers] is the number of distinct [seller_id]
    among the items of that order (an item without seller brings none),
    which is at most the number of these items. *)
Theorem get_number_sellers_counts_distinct d :
  NoDup (NumberSellers.order_id <$> get_number_sellers d)
  ∧ (∀ id, id ∈ NumberSellers.order_id <$> get_number_sellers d ↔
           id ∈ OrderItems.order_id <$> order_items d)
  ∧ Forall (λ row,
       let items := filter (λ i, OrderItems.order_id i
                                 = NumberSellers.order_id row)
                      (order_items d) in
       NumberSellers.number_of_sellers row
       = size (list_to_set (omap OrderItems.seller_id items) : gset string)
       ∧ (NumberSellers.number_of_sellers row ≤ length items)%nat)
      (get_number_sellers d).
Proof.
  unfold get_number_sellers.
  destruct (groupby_agg_spec OrderItems.order_id
              (λ g, {| NumberSellers.order_id := g.1;
                       NumberSellers.number_of_sellers :=
                         nunique (OrderItems.seller_id <$> g.2) |})
              NumberSellers.order_id (order_items d))
    as (Hnd & Hk & Hrows); [done|].
  split_and!; [exact Hnd|exact Hk|].
  eapply Forall_impl; [exact Hrows|]. simpl. intros row ->. simpl. split.
  - by rewrite nunique_size, omap_fmap_cell.
  - etrans; [apply nunique_le|]. by rewrite length_fmap.
Qed.

(** The two items of [o1] come from two sellers, the three of [o3] from
    one. *)
Example get_number_sellers_five_orders :
  (λ row, (NumberSellers.order_id row, NumberSellers.number_of_sellers row))
    <$> get_number_sellers five_orders
  = [("o1", 2); ("o2", 1); ("o3", 1); ("o4", 1); ("o5", 1)]%nat.
Proof. reflexivity. Qed.


(** ** The review scores *)

(** C7: in the table [get_review_score] returns, [dim_is_five_star] is 1
    when the review score is 5 and 0 otherwise, [dim_is_one_star] is 1
    when the review score is 1 and 0 otherwise, and no row has both at 1. *)
Theorem get_review_score_indicators d :
  Forall2 (λ review row,
      ReviewScore.order_id row = OrderReviews.order_id review
      ∧ ReviewScore.review_score row = OrderReviews.review_score review)
    (order_reviews d) (get_review_score d)
  ∧ Forall (λ row,
       (ReviewScore.dim_is_five_star row = 1 ↔
        ReviewScore.review_score row = Some 5)
       ∧ (ReviewScore.dim_is_five_star row = 0 ↔
          ReviewScore.review_score row ≠ Some 5)
       ∧ (ReviewScore.dim_is_one_star row = 1 ↔
          ReviewScore.review_score row = Some 1)
       ∧ (ReviewScore.dim_is_one_star row = 0 ↔
          ReviewScore.review_score row ≠ Some 1)
       ∧ ¬ (ReviewScore.dim_is_five_star row = 1
            ∧ ReviewScore.dim_is_one_star row = 1))
      (get_review_score d).
Proof.
  unfold get_review_score. split.
  - apply Forall2_fmap_r, Forall_Forall2_diag, Forall_forall. by intros.
  - apply Forall_fmap, Forall_forall. intros r _. simpl.
    repeat case_bool_decide; split_and!;
      try (split; intros; first [done|lia|congruence]);
      intros [? ?]; first [lia|congruence].
Qed.

(** ** The training set *)



Lemma get_wait_time_order_ids to_datetime d b t :
  dates_parse to_datetime d →
  get_wait_time to_datetime d b = Ok t →
  WaitTime.order_id <$> t
  = Orders.order_id <$> filter is_delivered_order (orders d).
Proof.
  intros Hparse Ht.
  pose proof (get_wait_time_rows _ _ _ _ Hparse Ht) as H. symmetry.
  apply list_eq_Forall2, Forall2_fmap.
  eapply Forall2_impl; [exact H|].
  by intros o r (? & ? & ? & _ & _ & _ & ->).
Qed.

Lemma get_wait_time_durations to_datetime d b t :
  dates_parse to_datetime d →
  get_wait_time to_datetime d b = Ok t →
  Forall (λ o, is_Some (Orders.order_purchase_timestamp o)
               ∧ is_Some (Orders.order_delivered_customer_date o)
               ∧ is_Some (Orders.order_estimated_delivery_date o))
    (filter is_delivered_order (orders d)) →
  Forall (λ w, is_Some (WaitTime.wait_time w)
               ∧ is_Some (WaitTime.expected_wait_time w)) t.
Proof.
  intros Hparse Ht Hcells.
  pose proof (get_wait_time_rows _ _ _ _ Hparse Ht) as H.
  eapply Forall2_Forall_r; [exact H|].
  eapply Forall_impl; [exact Hcells|]. simpl.
  intros o ([sp Hsp] & [sd Hsd] & [se Hse]) r
    (p & dl & es & Hp & Hdl & Hes & ->).
  rewrite Hsp in Hp. rewrite Hsd in Hdl. rewrite Hse in Hes.
  destruct p as [p|]; [|by destruct Hp as [_ Hp]; specialize (Hp eq_refl)].
  destruct dl as [dl|]; [|by destruct Hdl as [_ Hdl]; specialize (Hdl eq_refl)].
  destruct es as [es|]; [|by destruct Hes as [_ Hes]; specialize (Hes eq_refl)].
  simpl. by eauto.
Qed.

(** On complete tables [dropna] removes nothing and the inner joins keep
    one row per delivered order that has a review. *)
Lemma get_training_data_row_count to_datetime hav d b :
  dates_parse to_datetime d → complete_tables d →
  ∃ ts, get_training_data to_datetime hav d b false = Ok ts
    ∧ length ts = length (reviewed_orders d).
Proof.
  intros Hparse (Hord & Hnd & Hscore & Hpf).
  destruct (get_wait_time_total to_datetime d b Hparse) as [wt Hwt].
  pose proof (get_wait_time_order_ids _ _ _ _ Hparse Hwt) as Hids.
  assert (Hord' : Forall (λ o,
             (is_Some (Orders.order_purchase_timestamp o)
              ∧ is_Some (Orders.order_delivered_customer_date o)
              ∧ is_Some (Orders.order_estimated_delivery_date o))
             ∧ Orders.order_id o ∈ OrderItems.order_id <$> order_items d)
            (filter is_delivered_order (orders d))).
  { apply Forall_forall. intros o [Hdel Ho]%list_elem_of_filter.
    rewrite Forall_forall in Hord.
    destruct (Hord o Ho Hdel) as (? & ? & ? & ?). done. }
  apply Forall_and in Hord' as [Hcells Hitems].
  pose proof (get_wait_time_durations _ _ _ _ Hparse Hwt Hcells) as Hdur.
  assert (Hwitems : ∀ w, w ∈ wt →
            WaitTime.order_id w ∈ OrderItems.order_id <$> order_items d).
  { intros w Hw. apply (list_elem_of_fmap_2 WaitTime.order_id) in Hw.
    rewrite Hids in Hw. apply list_elem_of_fmap in Hw as (o & -> & Ho).
    rewrite Forall_forall in Hitems. by apply Hitems. }
  destruct (get_number_products_ids d) as [Hnp Hkp].
  destruct (get_number_sellers_ids d) as [Hns Hks].
  destruct (get_price_and_freight_ids d) as [Hnf Hkf].
  unfold get_training_data. rewrite Hwt. simpl.
  eexists. split; [reflexivity|].
  set (m1 := merge_inner WaitTime.order_id ReviewScore.order_id pair wt
               (get_review_score d)).
  assert (H1 : Forall (λ t, t.1 ∈ wt
                 ∧ is_Some (ReviewScore.review_score t.2)) m1).
  { apply Forall_merge_inner. intros w r Hw Hr _. split; [exact Hw|].
    apply list_elem_of_fmap in Hr as (r0 & -> & Hr). simpl.
    rewrite Forall_forall in Hscore. by apply Hscore. }
  set (m2 := merge_inner (λ t, WaitTime.order_id t.1) NumberProducts.order_id
               pair m1 (get_number_products d)).
  assert (H2 : Forall (λ t, t.1.1 ∈ wt
                 ∧ is_Some (ReviewScore.review_score t.1.2)) m2).
  { apply Forall_merge_inner. intros t p Ht _ _.
    rewrite Forall_forall in H1. by apply H1. }
  set (m3 := merge_inner (λ t, WaitTime.order_id t.1.1) NumberSellers.order_id
               pair m2 (get_number_sellers d)).
  assert (H3 : Forall (λ t, t.1.1.1 ∈ wt
                 ∧ is_Some (ReviewScore.review_score t.1.1.2)) m3).
  { apply Forall_merge_inner. intros t p Ht _ _.
    rewrite Forall_forall in H2. by apply H2. }
  set (m4 := merge_inner (λ t, WaitTime.order_id t.1.1.1) PriceFreight.order_id
               pair m3 (get_price_and_freight d)).
  assert (H4 : Forall (λ t, training_notna (t, None)) m4).
  { apply Forall_merge_inner. intros t pf Ht Hin _.
    rewrite Forall_forall in H3. destruct (H3 t Ht) as [Hw Hr].
    rewrite Forall_forall in Hdur. destruct (Hdur _ Hw) as [? ?].
    rewrite Forall_forall in Hpf. destruct (Hpf _ Hin) as [? ?].
    unfold training_notna. simpl. done. }
  rewrite filter_all by (by apply Forall_fmap).
  rewrite length_fmap. unfold m4.
  rewrite merge_inner_length_total; [|exact Hnf|].
  2: { eapply Forall_impl; [exact H3|]. intros t [Hw _]. simpl.
       apply Hkf. by apply Hwitems. }
  unfold m3. rewrite merge_inner_length_total; [|exact Hns|].
  2: { eapply Forall_impl; [exact H2|]. intros t [Hw _]. simpl.
       apply Hks. by apply Hwitems. }
  unfold m2. rewrite merge_inner_length_total; [|exact Hnp|].
  2: { eapply Forall_impl; [exact H1|]. intros t [Hw _]. simpl.
       apply Hkp. by apply Hwitems. }
  assert (Hrev : ReviewScore.order_id <$> get_review_score d
                 = OrderReviews.order_id <$> order_reviews d).
  { unfold get_review_score. rewrite <- list_fmap_compose.
    by apply list_fmap_ext. }
  unfold m1. rewrite merge_inner_length by (by rewrite Hrev).
  rewrite Hrev. unfold reviewed_orders.
  rewrite (length_filter_fmap WaitTime.order_id
             (λ id, id ∈ OrderReviews.order_id <$> order_reviews d) _ _).
  rewrite (length_filter_fmap Orders.order_id
             (λ id, id ∈ OrderReviews.order_id <$> order_reviews d) _ _).
  by rewrite Hids.
Qed.



(** The sample tables are complete, and the count is that of the four
    reviewed orders. *)
Example get_training_data_row_count_five_orders :
  ∃ ts, get_training_data iso_datetime (λ _ _ _ _, 0%float)
          five_orders true false = Ok ts
    ∧ length ts = length (reviewed_orders five_orders).
Proof.
  apply get_training_data_row_count;
    apply (bool_decide_unpack _); vm_compute; exact I.
Qed.




(** ** The loader *)

Section loader.
Context {DataFrame : Type} (read_csv : string → result DataFrame).

Lemma load_files_Raise csv_path l data tr e :
  (load_files DataFrame read_csv csv_path l data tr).1 = Raise e →
  ∃ kf, kf ∈ l ∧ read_csv (path_join csv_path kf.2) = Raise e.
Proof.
  revert data tr. induction l as [|[key file] l IH]; intros data tr; simpl.
  - discriminate.
  - unfold io_bind, pd_read_csv.
    destruct (read_csv (path_join csv_path file)) as [df|e'] eqn:Hread.
    + intros H. apply IH in H as (kf & Hkf & Hr).
      exists kf. split; [by apply list_elem_of_further|exact Hr].
    + simpl. intros [= ->]. exists (key, file).
      split; [apply list_elem_of_here|exact Hread].
Qed.

Lemma load_files_Ok csv_path l data tr :
  Forall (λ kf, ∃ df, read_csv (path_join csv_path kf.2) = Ok df) l →
  ∃ m, load_files DataFrame read_csv csv_path l data tr
       = (Ok m, tr ++ ((λ kf, ReadCsv (path_join csv_path kf.2)) <$> l))
    ∧ dom m = dom data ∪ list_to_set (fst <$> l).
Proof.
  intros Hl. revert data tr.
  induction Hl as [|[key file] l [df Hdf] _ IH]; intros data tr; simpl.
  - exists data. rewrite app_nil_r. split; [reflexivity|].
    simpl. by rewrite (right_id_L ∅ (∪)).
  - unfold io_bind, pd_read_csv. simpl in Hdf. rewrite Hdf.
    destruct (IH (<[key:=df]> data) (tr ++ [ReadCsv (path_join csv_path file)]))
      as (m & Hm & Hdom).
    exists m. rewrite Hm, <- app_assoc. split; [reflexivity|].
    rewrite Hdom, dom_insert_L. simpl.
    by rewrite (comm_L (∪) {[key]} (dom data)), <- (assoc_L (∪)).
Qed.
End loader.

(** Against C6 as stated: the directory is there and can be listed, a
    csv file in it cannot be opened, and [get_data] raises the same
    [FileAccessError] after the listing succeeded. *)
Lemma get_data_unreadable_file :
  sample_listdir (replace "/olist/data.py" "/data/csv"
                    "/home/user/olist/data.py")
  = Some ["olist_orders_dataset.csv"; "notes.txt"; "sellers.csv"]
  ∧ get_data string sample_listdir unreadable_files
      "/home/user/olist/data.py" []
    = (Raise FileAccessError,
       [Listdir "/home/user/data/csv";
        ReadCsv "/home/user/data/csv/olist_orders_dataset.csv"]).
Proof. split; vm_compute; reflexivity. Qed.

(** When every file can be read the loader returns the tables under the
    names derived from the file names, skipping the text file. *)
Example get_data_sample :
  get_data string sample_listdir readable_files "/home/user/olist/data.py" []
  = (Ok (<["sellers" := "/home/user/data/csv/sellers.csv"]>
           (<["orders" := "/home/user/data/csv/olist_orders_dataset.csv"]> ∅)),
     [Listdir "/home/user/data/csv";
      ReadCsv "/home/user/data/csv/olist_orders_dataset.csv";
      ReadCsv "/home/user/data/csv/sellers.csv"]).
Proof. vm_compute. reflexivity. Qed.

(** C6, amended: when the [data/csv] directory is missing or unreadable,
    [get_data] raises [FileAccessError] after the one attempt to list it,
    and nothing else is tried.  When the directory can be listed,
    [get_data] raises only the error of reading one of the listed csv
    files, and returns the tables when every listed csv file can be read. *)
Theorem get_data_file_access_error :
  ∀ (DataFrame : Type) listdir (read_csv : string → result DataFrame)
    file tr,
    let csv_path := replace "/olist/data.py" "/data/csv" file in
    (listdir csv_path = None →
     get_data DataFrame listdir read_csv file tr
     = (Raise FileAccessError, tr ++ [Listdir csv_path]))
    ∧ (∀ names e,
         listdir csv_path = Some names →
         (get_data DataFrame listdir read_csv file tr).1 = Raise e →
         ∃ f, f ∈ names ∧ contains ".csv" f = true
              ∧ read_csv (path_join csv_path f) = Raise e)
    ∧ (∀ names,
         listdir csv_path = Some names →
         Forall (λ f, contains ".csv" f = true →
                      ∃ df, read_csv (path_join csv_path f) = Ok df) names →
         ∃ m, (get_data DataFrame listdir read_csv file tr).1 = Ok m).
Proof.
  intros DataFrame listdir read_csv file tr csv_path. split_and!.
  - intros Hdir. unfold get_data, io_bind, os_listdir.
    fold csv_path. rewrite Hdir. reflexivity.
  - intros names e Hdir. unfold get_data, io_bind, os_listdir.
    fold csv_path. rewrite Hdir. simpl.
    intros (kf & Hkf & Hr)%load_files_Raise.
    destruct kf as [key f]. apply elem_of_zip_r in Hkf.
    apply list_elem_of_filter in Hkf as [Hcsv Hf]. by exists f.
  - intros names Hdir Hread. unfold get_data, io_bind, os_listdir.
    fold csv_path. rewrite Hdir. simpl.
    edestruct (load_files_Ok read_csv csv_path) as (m & Hm & _);
      [|exists m; rewrite Hm; reflexivity].
    apply Forall_forall. intros [key f] Hkf. apply elem_of_zip_r in Hkf.
    apply list_elem_of_filter in Hkf as [Hcsv Hf].
    rewrite Forall_forall in Hread. by apply Hread.
Qed.

Lemma get_data_missing_directory :
  get_data string sample_listdir readable_files "/opt/olist/data.py" []
  = (Raise FileAccessError, [Listdir "/opt/data/csv"]).
Proof.
  apply (proj1 (get_data_file_access_error string sample_listdir
                  readable_files "/opt/olist/data.py" [])).
  reflexivity.
Defined.

(** ** The haversine distance *)

Section haversine.
Local Open Scope R_scope.

Lemma PI_bounds : 3.141592 < PI < 3.141593.
Proof.
  pose proof (PI_2_3_7_ineq 3) as [Hl Hu].
  unfold sum_f_R0, tg_alt, PI_2_3_7_tg, Ratan_seq in Hl, Hu.
  simpl in Hl, Hu. split; lra.
Qed.

Lemma haversine_distance_same lon lat :
  Utils.haversine_distance lon lat lon lat = 0.
Proof.
  unfold Utils.haversine_distance, Utils.haversine_a.
  replace (Utils.radians lat - Utils.radians lat) with 0 by ring.
  replace (Utils.radians lon - Utils.radians lon) with 0 by ring.
  replace (0 / 2) with 0 by field.
  rewrite sin_0. unfold Rsqr.
  replace (0 * 0 + cos (Utils.radians lat) * cos (Utils.radians lat) * (0 * 0))
    with 0 by ring.
  rewrite sqrt_0, asin_0. ring.
Qed.

Lemma haversine_distance_quarter :
  Utils.haversine_distance 0 0 0 90 = Utils.earth_radius * PI / 2.
Proof.
  unfold Utils.haversine_distance, Utils.haversine_a, Utils.radians.
  replace (0 * PI / 180) with 0 by field.
  replace ((90 * PI / 180 - 0) / 2) with (PI / 4) by field.
  replace ((0 - 0) / 2) with 0 by field.
  rewrite sin_0, sin_PI4, cos_0. unfold Rsqr.
  replace (1 / sqrt 2 * (1 / sqrt 2) + 1 * cos (90 * PI / 180) * (0 * 0))
    with (/ (sqrt 2 * sqrt 2)).
  2: { field. apply Rgt_not_eq, sqrt_lt_R0. lra. }
  rewrite sqrt_sqrt by lra.
  replace (/ 2) with (/ sqrt 2)².
  2: { unfold Rsqr. rewrite <- Rinv_mult, sqrt_sqrt by lra. reflexivity. }
  rewrite sqrt_Rsqr.
  2: { left. apply Rinv_0_lt_compat, sqrt_lt_R0. lra. }
  rewrite asin_inv_sqrt2. field.
Qed.

(** C10: the haversine distance is the stated formula (degrees turned
    into radians, [a = sin²(Δlat/2) + cos(lat1)·cos(lat2)·sin²(Δlon/2)],
    distance [2·R·asin(√a)] with [R = 6371]); from any point to itself
    it is 0, and from (lon 0, lat 0) to (lon 0, lat 90) it is a quarter
    of a great circle, within 0.05 km of 10007.5 km. *)
Theorem haversine_distance_formula :
  (∀ lon1 lat1 lon2 lat2,
     let rad := λ deg, deg * PI / 180 in
     let a := (sin ((rad lat2 - rad lat1) / 2))²
              + cos (rad lat1) * cos (rad lat2)
                * (sin ((rad lon2 - rad lon1) / 2))² in
     Utils.haversine_distance lon1 lat1 lon2 lat2
     = 2 * 6371 * asin (sqrt a))
  ∧ Utils.haversine_distance 0 0 0 0 = 0
  ∧ Utils.haversine_distance 0 0 0 90 = 6371 * PI / 2
  ∧ Rabs (Utils.haversine_distance 0 0 0 90 - 10007.5) < 0.05.
Proof.
  split_and!.
  - reflexivity.
  - apply haversine_distance_same.
  - apply haversine_distance_quarter.
  - rewrite haversine_distance_quarter. unfold Utils.earth_radius.
    pose proof PI_bounds. apply Rabs_def1; lra.
Qed.
End haversine.

(** ** More on the loader *)

Lemma prefix_spec (p s : string) :
  String.prefix p s = true ↔ ∃ b, s = p +:+ b.
Proof.
  revert s. induction p as [|c p IH]; intros s.
  - split; [by exists s|by destruct s].
  - destruct s as [|c' s]; simpl; [split; [discriminate|by intros [b [=]]]|].
    destruct (Ascii.ascii_dec c c') as [->|Hne].
    + rewrite IH. split.
      * intros [b ->]. by exists b.
      * intros [b [= ->]]. by exists b.
    + split; [discriminate|]. intros [b [= ? _]]. by destruct Hne.
Qed.

(** [sub in s] holds exactly when [sub] is a substring of [s]. *)
Lemma contains_spec (sub s : string) :
  contains sub s = true ↔ ∃ a b, s = a +:+ sub +:+ b.
Proof.
  induction s as [|c s IH]; cbn [contains].
  - rewrite orb_false_r, prefix_spec. split.
    + intros [b Hb]. by exists "", b.
    + intros (a & b & Hab). destruct a; [by exists b|discriminate].
  - rewrite orb_true_iff, prefix_spec, IH. split.
    + intros [[b Hb]|(a & b & ->)].
      * by exists "", b.
      * by exists (String c a), b.
    + intros (a & b & Hab). destruct a as [|c' a].
      * left. by exists b.
      * right. injection Hab as _ ->. by exists a, b.
Qed.

Lemma replace_from_absent (old new s : string) :
  contains old s = false → replace_from old new 0 s = s.
Proof.
  induction s as [|c s IH]; [reflexivity|].
  cbn [contains replace_from]. intros [Hp Hs]%orb_false_iff.
  rewrite Hp. by rewrite IH.
Qed.

(** [s.replace(old, new)] is [s] when [old] does not occur in [s]. *)
Lemma replace_absent (old new s : string) :
  contains old s = false → replace old new s = s.
Proof.
  destruct old as [|c old]; [by destruct s|].
  apply replace_from_absent.
Qed.

Lemma zip_key_names (files : list string) :
  zip (key_name <$> files) files = (λ f, (key_name f, f)) <$> files.
Proof.
  induction files as [|f files IH]; [reflexivity|].
  rewrite !fmap_cons. cbn [zip_with]. by rewrite IH.
Qed.

Section loader_runs.
Context {DataFrame : Type}.
Context (listdir : string → option (list string)).
Context (read_csv : string → result DataFrame).

Lemma get_data_unfold file tr :
  get_data DataFrame listdir read_csv file tr
  = match listdir (csv_path_of file) with
    | None => (Raise FileAccessError, tr ++ [Listdir (csv_path_of file)])
    | Some names =>
        load_files DataFrame read_csv (csv_path_of file)
          ((λ f, (key_name f, f)) <$> csv_files names) ∅
          (tr ++ [Listdir (csv_path_of file)])
    end.
Proof.
  unfold get_data, io_bind, os_listdir. fold (csv_path_of file).
  destruct (listdir (csv_path_of file)) as [names|]; simpl; [|reflexivity].
  fold (csv_files names). fold key_name. by rewrite zip_key_names.
Qed.

Lemma load_files_cons csv_path k f l data tr :
  load_files DataFrame read_csv csv_path ((k, f) :: l) data tr
  = match read_csv (path_join csv_path f) with
    | Ok df =>
        load_files DataFrame read_csv csv_path l (<[k:=df]> data)
          (tr ++ [ReadCsv (path_join csv_path f)])
    | Raise e => (Raise e, tr ++ [ReadCsv (path_join csv_path f)])
    end.
Proof.
  simpl. unfold io_bind, pd_read_csv.
  by destruct (read_csv (path_join csv_path f)).
Qed.

Lemma load_files_run csv_path files data tr :
  Forall (λ f, ∃ df, read_csv (path_join csv_path f) = Ok df) files →
  ∃ m, load_files DataFrame read_csv csv_path
         ((λ f, (key_name f, f)) <$> files) data tr
       = (Ok m, tr ++ reads csv_path files)
    ∧ dom m = dom data ∪ list_to_set (key_name <$> files)
    ∧ (∀ k, k ∉ key_name <$> files → m !! k = data !! k).
Proof.
  intros Hl. revert data tr.
  induction Hl as [|f files [df Hdf] _ IH]; intros data tr.
  - exists data. simpl. rewrite app_nil_r. split_and!; [reflexivity| |done].
    by rewrite (right_id_L ∅ (∪)).
  - destruct (IH (<[key_name f:=df]> data)
                (tr ++ [ReadCsv (path_join csv_path f)]))
      as (m & Hm & Hdom & Hother).
    exists m. split_and!.
    + rewrite fmap_cons, load_files_cons, Hdf, Hm.
      unfold reads. by rewrite fmap_cons, <- app_assoc.
    + rewrite Hdom, dom_insert_L, fmap_cons, list_to_set_cons.
      by rewrite (comm_L (∪) {[key_name f]} (dom data)), <- (assoc_L (∪)).
    + intros k Hk. rewrite fmap_cons in Hk.
      apply not_elem_of_cons in Hk as [Hne Hk].
      rewrite (Hother k Hk). by apply lookup_insert_ne.
Qed.

Lemma load_files_last csv_path l1 f l2 df data tr :
  Forall (λ f, ∃ df, read_csv (path_join csv_path f) = Ok df)
    (l1 ++ f :: l2) →
  key_name f ∉ key_name <$> l2 →
  read_csv (path_join csv_path f) = Ok df →
  ∃ m, (load_files DataFrame read_csv csv_path
          ((λ f, (key_name f, f)) <$> l1 ++ f :: l2) data tr).1 = Ok m
    ∧ m !! key_name f = Some df.
Proof.
  intros Hall Hlast Hf. revert data tr.
  induction l1 as [|g l1 IH]; intros data tr.
  - simpl in Hall. apply Forall_cons in Hall as [_ Hall].
    destruct (load_files_run csv_path l2 (<[key_name f:=df]> data)
                (tr ++ [ReadCsv (path_join csv_path f)]) Hall)
      as (m & Hm & _ & Hother).
    exists m. rewrite app_nil_l, fmap_cons, load_files_cons, Hf, Hm.
    split; [reflexivity|]. rewrite (Hother _ Hlast). apply lookup_insert_eq.
  - simpl in Hall. apply Forall_cons in Hall as [[dg Hg] Hall].
    destruct (IH Hall (<[key_name g:=dg]> data)
                (tr ++ [ReadCsv (path_join csv_path g)])) as (m & Hm & Hk).
    exists m. rewrite <- app_comm_cons, fmap_cons, load_files_cons, Hg.
    by split.
Qed.

Lemma load_files_first_failure csv_path l1 f l2 e data tr :
  Forall (λ f, ∃ df, read_csv (path_join csv_path f) = Ok df) l1 →
  read_csv (path_join csv_path f) = Raise e →
  load_files DataFrame read_csv csv_path
    ((λ f, (key_name f, f)) <$> l1 ++ f :: l2) data tr
  = (Raise e, tr ++ reads csv_path (l1 ++ [f])).
Proof.
  intros Hl1 Hf. revert data tr.
  induction Hl1 as [|g l1 [dg Hg] _ IH]; intros data tr.
  - by rewrite app_nil_l, fmap_cons, load_files_cons, Hf.
  - rewrite <- !app_comm_cons, fmap_cons, load_files_cons, Hg, IH.
    unfold reads. by rewrite fmap_cons, <- app_assoc.
Qed.

(** The files read are an initial part of the list, in its order. *)
Lemma load_files_trace csv_path files data tr :
  ∃ l1 l2, files = l1 ++ l2
    ∧ (load_files DataFrame read_csv csv_path
         ((λ f, (key_name f, f)) <$> files) data tr).2
      = tr ++ reads csv_path l1.
Proof.
  revert data tr. induction files as [|f files IH]; intros data tr.
  - exists [], []. simpl. by rewrite app_nil_r.
  - rewrite fmap_cons, load_files_cons.
    destruct (read_csv (path_join csv_path f)) as [df|e].
    + destruct (IH (<[key_name f:=df]> data)
                  (tr ++ [ReadCsv (path_join csv_path f)]))
        as (l1 & l2 & -> & Htr).
      exists (f :: l1), l2. split; [reflexivity|].
      rewrite Htr. unfold reads. by rewrite fmap_cons, <- app_assoc.
    + exists [f], files. by split.
Qed.
End loader_runs.


(** X1: when the directory can be listed and every listed name that
    contains [.csv] can be read, [get_data] lists the directory once, reads
    exactly these files, once each and in the order of the listing, and
    returns a dictionary whose keys are the names derived from them. *)
Theorem get_data_loads_csv_files :
  ∀ (DataFrame : Type) listdir (read_csv : string → result DataFrame)
    file names tr,
    listdir (csv_path_of file) = Some names →
    Forall (λ f, ∃ df, read_csv (path_join (csv_path_of file) f) = Ok df)
      (csv_files names) →
    ∃ m, get_data DataFrame listdir read_csv file tr
         = (Ok m, tr ++ Listdir (csv_path_of file)
                    :: reads (csv_path_of file) (csv_files names))
      ∧ dom m = list_to_set (key_name <$> csv_files names).
Proof.
  intros DataFrame listdir read_csv file names tr Hdir Hread.
  rewrite get_data_unfold, Hdir.
  destruct (load_files_run read_csv (csv_path_of file) (csv_files names) ∅
              (tr ++ [Listdir (csv_path_of file)]) Hread)
    as (m & Hm & Hdom & _).
  exists m. rewrite Hm, <- app_assoc. split; [reflexivity|].
  by rewrite Hdom, dom_empty_L, (left_id_L ∅ (∪)).
Qed.

Lemma get_data_loads_csv_files_sample :
  ∃ m, get_data string sample_listdir readable_files
         "/home/user/olist/data.py" []
       = (Ok m, [] ++ Listdir (csv_path_of "/home/user/olist/data.py")
                  :: reads (csv_path_of "/home/user/olist/data.py")
                       (csv_files ["olist_orders_dataset.csv"; "notes.txt";
                                   "sellers.csv"]))
    ∧ dom m
      = list_to_set (key_name <$> csv_files ["olist_orders_dataset.csv";
                                             "notes.txt"; "sellers.csv"]).
Proof.
  apply (get_data_loads_csv_files string sample_listdir readable_files).
  - reflexivity.
  - repeat constructor; eexists; reflexivity.
Defined.

(** X2: [get_data] stops at the first file it cannot read: the files
    before it are read, its error is raised, and no later file is
    touched. *)
Theorem get_data_stops_at_first_failure :
  ∀ (DataFrame : Type) listdir (read_csv : string → result DataFrame)
    file names l1 f l2 e tr,
    listdir (csv_path_of file) = Some names →
    csv_files names = l1 ++ f :: l2 →
    Forall (λ f, ∃ df, read_csv (path_join (csv_path_of file) f) = Ok df) l1 →
    read_csv (path_join (csv_path_of file) f) = Raise e →
    get_data DataFrame listdir read_csv file tr
    = (Raise e, tr ++ Listdir (csv_path_of file)
                  :: reads (csv_path_of file) (l1 ++ [f])).
Proof.
  intros DataFrame listdir read_csv file names l1 f l2 e tr Hdir Hsplit Hl1 Hf.
  rewrite get_data_unfold, Hdir, Hsplit.
  rewrite (load_files_first_failure read_csv _ l1 f l2 e ∅ _ Hl1 Hf).
  by rewrite <- app_assoc.
Qed.

Lemma get_data_stops_at_first_failure_sample :
  get_data string twice_listdir corrupt_sellers "/home/user/olist/data.py" []
  = (Raise ParserError,
     [] ++ Listdir (csv_path_of "/home/user/olist/data.py")
       :: reads (csv_path_of "/home/user/olist/data.py")
            (["olist_orders_dataset.csv"] ++ ["sellers.csv"])).
Proof.
  apply (get_data_stops_at_first_failure string twice_listdir corrupt_sellers
           "/home/user/olist/data.py"
           ["olist_orders_dataset.csv"; "sellers.csv"; "orders.csv"]
           ["olist_orders_dataset.csv"] "sellers.csv" ["orders.csv"]).
  - reflexivity.
  - reflexivity.
  - repeat constructor; eexists; reflexivity.
  - reflexivity.
Defined.

(** X3: when two files give the same key, the dictionary holds the table
    of the one listed last. *)
Theorem get_data_last_file_wins :
  ∀ (DataFrame : Type) listdir (read_csv : string → result DataFrame)
    file names l1 f l2 df tr,
    listdir (csv_path_of file) = Some names →
    csv_files names = l1 ++ f :: l2 →
    Forall (λ f, ∃ df, read_csv (path_join (csv_path_of file) f) = Ok df)
      (csv_files names) →
    key_name f ∉ key_name <$> l2 →
    read_csv (path_join (csv_path_of file) f) = Ok df →
    ∃ m, (get_data DataFrame listdir read_csv file tr).1 = Ok m
      ∧ m !! key_name f = Some df.
Proof.
  intros DataFrame listdir read_csv file names l1 f l2 df tr
    Hdir Hsplit Hread Hlast Hf.
  rewrite get_data_unfold, Hdir, Hsplit. rewrite Hsplit in Hread.
  by apply load_files_last.
Qed.

Lemma get_data_last_file_wins_sample :
  ∃ m, (get_data string twice_listdir readable_files
          "/home/user/olist/data.py" []).1 = Ok m
    ∧ m !! key_name "orders.csv" = Some "/home/user/data/csv/orders.csv".
Proof.
  apply (get_data_last_file_wins string twice_listdir readable_files
           "/home/user/olist/data.py"
           ["olist_orders_dataset.csv"; "sellers.csv"; "orders.csv"]
           ["olist_orders_dataset.csv"; "sellers.csv"] "orders.csv" []).
  - reflexivity.
  - reflexivity.
  - repeat constructor; eexists; reflexivity.
  - apply not_elem_of_nil.
  - reflexivity.
Defined.

(** Both files of the sample are stored under [orders]. *)
Example key_name_orders :
  key_name "olist_orders_dataset.csv" = "orders"
  ∧ key_name "orders.csv" = "orders"
  ∧ key_name "olist_order_items_dataset.csv" = "order_items"
  ∧ key_name "product_category_name_translation.csv"
    = "product_category_name_translation".
Proof. by vm_compute. Qed.

(** X4: whatever the file system holds, [get_data] first lists the
    [data/csv] directory, once, and then reads only names of that listing
    that have [.csv] as a substring, an initial part of them in listing
    order. *)
Theorem get_data_reads_only_listed_csv :
  ∀ (DataFrame : Type) listdir (read_csv : string → result DataFrame)
    file tr,
    ∃ l1 l2,
      csv_files (default [] (listdir (csv_path_of file))) = l1 ++ l2
      ∧ (get_data DataFrame listdir read_csv file tr).2
        = tr ++ Listdir (csv_path_of file) :: reads (csv_path_of file) l1
      ∧ Forall (λ f, f ∈ default [] (listdir (csv_path_of file))
                     ∧ ∃ a b, f = a +:+ ".csv" +:+ b) l1.
Proof.
  intros DataFrame listdir read_csv file tr. rewrite get_data_unfold.
  destruct (listdir (csv_path_of file)) as [names|]; simpl.
  - destruct (load_files_trace read_csv (csv_path_of file) (csv_files names)
                ∅ (tr ++ [Listdir (csv_path_of file)]))
      as (l1 & l2 & Hsplit & Htr).
    exists l1, l2. rewrite Htr, <- app_assoc. split_and!; [done..|].
    apply Forall_forall. intros f Hf.
    assert (Hin : f ∈ csv_files names).
    { rewrite Hsplit. apply elem_of_app. by left. }
    apply list_elem_of_filter in Hin as [Hcsv Hin].
    split; [exact Hin|]. by apply contains_spec.
  - exists [], []. split_and!; [reflexivity|reflexivity|constructor].
Qed.

(** X5: when the path of the module does not contain [/olist/data.py],
    the directory [get_data] lists is that path itself; when nothing can
    be listed there, [get_data] raises. *)
Theorem get_data_unanchored_path :
  ∀ (DataFrame : Type) listdir (read_csv : string → result DataFrame)
    file tr,
    contains "/olist/data.py" file = false →
    csv_path_of file = file
    ∧ (∃ r tr', get_data DataFrame listdir read_csv file tr
                = (r, tr ++ Listdir file :: tr'))
    ∧ (listdir file = None →
       get_data DataFrame listdir read_csv file tr
       = (Raise FileAccessError, tr ++ [Listdir file])).
Proof.
  intros DataFrame listdir read_csv file tr Habsent.
  assert (Hpath : csv_path_of file = file) by by apply replace_absent.
  split_and!; [exact Hpath| |].
  - destruct (load_files_trace read_csv file
                (csv_files (default [] (listdir file))) ∅
                (tr ++ [Listdir file])) as (l1 & l2 & _ & Htr).
    rewrite get_data_unfold, Hpath.
    destruct (listdir file) as [names|].
    + destruct (load_files _ _ _ _ _ _) as [r tr'] eqn:Hrun.
      simpl in Htr. subst tr'. exists r, (reads file l1).
      by rewrite <- app_assoc.
    + by exists (Raise FileAccessError), [].
  - intros Hdir. by rewrite get_data_unfold, Hpath, Hdir.
Qed.

Lemma get_data_unanchored_path_sample :
  csv_path_of "/opt/app/loader.py" = "/opt/app/loader.py"
  ∧ (∃ r tr', get_data string sample_listdir readable_files
                "/opt/app/loader.py" []
              = (r, [] ++ Listdir "/opt/app/loader.py" :: tr'))
  ∧ (sample_listdir "/opt/app/loader.py" = None →
     get_data string sample_listdir readable_files "/opt/app/loader.py" []
     = (Raise FileAccessError, [] ++ [Listdir "/opt/app/loader.py"])).
Proof.
  apply (get_data_unanchored_path string sample_listdir readable_files
           "/opt/app/loader.py" []).
  reflexivity.
Defined.

(** ** More on the wait-time derivation *)




(** ** More on the tables grouped by order *)

Lemma grouped_ids {B : Type} (mk : string * list OrderItems.row → B)
    (id : B → string) (items : list OrderItems.row) :
  (∀ g, id (mk g) = g.1) →
  id <$> (mk <$> groupby String.le OrderItems.order_id items)
  = merge_sort String.le (remove_dups (OrderItems.order_id <$> items)).
Proof.
  intros Hid. rewrite <- groupby_keys, <- list_fmap_compose.
  apply list_fmap_ext. intros _ g _. apply Hid.
Qed.

(** X8: the product-count, seller-count and price/freight tables have the
    same [order_id] column, in ascending order, whatever the orders table
    holds: it is the sorted list of the distinct [order_id] of the order
    items. *)
Theorem grouped_tables_same_orders d :
  NumberProducts.order_id <$> get_number_products d
  = NumberSellers.order_id <$> get_number_sellers d
  ∧ NumberSellers.order_id <$> get_number_sellers d
    = PriceFreight.order_id <$> get_price_and_freight d
  ∧ Sorted String.le (PriceFreight.order_id <$> get_price_and_freight d)
  ∧ PriceFreight.order_id <$> get_price_and_freight d
    ≡ₚ remove_dups (OrderItems.order_id <$> order_items d).
Proof.
  unfold get_number_products, get_number_sellers, get_price_and_freight.
  rewrite !grouped_ids by done.
  split_and!; [reflexivity|reflexivity| |].
  - apply Sorted_merge_sort. apply _.
  - apply merge_sort_Permutation.
Qed.

Lemma nunique_zero `{EqDecision A} (l : list (option A)) :
  nunique l = 0%nat ↔ Forall (λ cell, cell = None) l.
Proof.
  unfold nunique. split.
  - intros Hl. apply Forall_forall. intros [x|] Hx; [|reflexivity].
    assert (Hin : x ∈ remove_dups (omap (λ cell, cell) l)).
    { apply elem_of_remove_dups, list_elem_of_omap. by exists (Some x). }
    destruct (remove_dups _); [by apply elem_of_nil in Hin|discriminate].
  - intros Hl.
    assert (Hnil : omap (λ cell, cell) l = []).
    { apply elem_of_nil_inv. intros x (c & Hc & Hx)%list_elem_of_omap.
      rewrite Forall_forall in Hl. rewrite (Hl c Hc) in Hx. discriminate. }
    by rewrite Hnil.
Qed.

(** X9: in a row of [get_number_sellers] the items of the order that
    have no seller are not counted: the count is at most the number of
    items of the order that have a seller, and it is 0 exactly when none
    has. *)
Theorem get_number_sellers_skips_missing d :
  Forall (λ row,
      let items := filter (λ i, OrderItems.order_id i
                                = NumberSellers.order_id row)
                     (order_items d) in
      (NumberSellers.number_of_sellers row
       ≤ length (filter (λ i, is_Some (OrderItems.seller_id i)) items))%nat
      ∧ (NumberSellers.number_of_sellers row = 0%nat ↔
         Forall (λ i, OrderItems.seller_id i = None) items))
    (get_number_sellers d).
Proof.
  unfold get_number_sellers. apply Forall_fmap, Forall_forall.
  intros [k g] Hg. apply elem_of_groupby in Hg as [_ Hg].
  simpl in *. subst g. split.
  - unfold nunique. etrans; [apply length_remove_dups_le|].
    rewrite omap_fmap_cell.
    induction (filter _ (order_items d)) as [|i l IH]; [reflexivity|].
    change (omap OrderItems.seller_id (i :: l))
      with (match OrderItems.seller_id i with
            | Some y => y :: omap OrderItems.seller_id l
            | None => omap OrderItems.seller_id l
            end).
    rewrite filter_cons.
    destruct (OrderItems.seller_id i) as [y|] eqn:Hi.
    + rewrite decide_True by done. simpl. lia.
    + rewrite decide_False by (by intros [? ?]). exact IH.
  - rewrite nunique_zero. by rewrite Forall_fmap.
Qed.

Lemma exact_sum_Permutation l k : l ≡ₚ k → exact_sum l = exact_sum k.
Proof.
  induction 1 as [|x l k _ IH|x y l|l k m _ IH1 _ IH2]; simpl.
  - reflexivity.
  - by rewrite IH.
  - lia.
  - by rewrite IH1.
Qed.

Lemma exact_sum_app l k : exact_sum (l ++ k) = exact_sum l + exact_sum k.
Proof.
  induction l as [|x l IH]; [reflexivity|].
  rewrite <- app_comm_cons. simpl. rewrite IH. lia.
Qed.

Lemma exact_sum_seq n :
  2 * exact_sum (Z.of_nat <$> seq 1 n) = Z.of_nat n * (Z.of_nat n + 1).
Proof.
  induction n as [|n IH]; [reflexivity|].
  rewrite seq_S, fmap_app, exact_sum_app. simpl seq. rewrite fmap_cons.
  simpl exact_sum. lia.
Qed.

(** X10: for an order whose items are numbered 1 to [n], in any order,
    with [n (n + 1) / 2] within [int64], [number_of_products] is
    [n (n + 1) / 2]. *)
Theorem number_of_products_consecutive d row n :
  row ∈ get_number_products d →
  OrderItems.order_item_id
    <$> filter (λ i, OrderItems.order_id i = NumberProducts.order_id row)
          (order_items d)
  ≡ₚ Z.of_nat <$> seq 1 n →
  Z.of_nat n * (Z.of_nat n + 1) < 2 ^ 64 →
  2 * NumberProducts.number_of_products row = Z.of_nat n * (Z.of_nat n + 1).
Proof.
  unfold get_number_products. intros Hrow Hperm Hn.
  apply list_elem_of_fmap in Hrow as ([k g] & -> & Hg).
  apply elem_of_groupby in Hg as [_ Hg]. simpl in *. subst g.
  pose proof (exact_sum_seq n) as Hseq.
  rewrite sum_int_exact; rewrite (exact_sum_Permutation _ _ Hperm); lia.
Qed.

Lemma number_of_products_consecutive_o3 :
  ∃ row, row ∈ get_number_products five_orders
    ∧ NumberProducts.order_id row = "o3"
    ∧ length (filter (λ i, OrderItems.order_id i = "o3")
                (order_items five_orders)) = 3%nat
    ∧ 2 * NumberProducts.number_of_products row
      = Z.of_nat 3 * (Z.of_nat 3 + 1).
Proof.
  exists {| NumberProducts.order_id := "o3";
            NumberProducts.number_of_products := 6 |}.
  assert (Hrow : {| NumberProducts.order_id := "o3";
                    NumberProducts.number_of_products := 6 |}
                 ∈ get_number_products five_orders).
  { apply list_elem_of_In. vm_compute. tauto. }
  split_and!; [exact Hrow|reflexivity|reflexivity|].
  apply (number_of_products_consecutive five_orders _ 3 Hrow).
  - reflexivity.
  - reflexivity.
Defined.

Lemma foldl_kahan_filter st l :
  foldl kahan_step st l = foldl kahan_step st (filter notna_float l).
Proof.
  revert st. induction l as [|x l IH]; intros st; [reflexivity|].
  rewrite filter_cons. unfold notna_float at 1.
  destruct (decide (PrimFloat.is_nan x = false)) as [Hx|Hx]; simpl.
  - apply IH.
  - apply not_false_is_true in Hx. rewrite <- IH. f_equal.
    unfold kahan_step. destruct st. by rewrite Hx.
Qed.

Lemma sum_skipna_filter l : sum_skipna l = sum_skipna (filter notna_float l).
Proof. unfold sum_skipna. by rewrite foldl_kahan_filter. Qed.

Lemma filter_notna_all_na l :
  Forall (λ x, PrimFloat.is_nan x = true) l → filter notna_float l = [].
Proof.
  induction 1 as [|x l Hx _ IH]; [reflexivity|].
  rewrite filter_cons_False; [exact IH|].
  unfold notna_float. by rewrite Hx.
Qed.

(** X11: a missing price or freight value counts for nothing in the totals
    of [get_price_and_freight], and an order all of whose prices (or
    freight values) are missing has the total 0.0, which is not a missing
    value. *)
Theorem get_price_and_freight_skips_missing d :
  Forall (λ row,
      let items := filter (λ i, OrderItems.order_id i
                                = PriceFreight.order_id row)
                     (order_items d) in
      PriceFreight.price row
      = sum_skipna (filter notna_float (OrderItems.price <$> items))
      ∧ PriceFreight.freight_value row
        = sum_skipna (filter notna_float (OrderItems.freight_value <$> items))
      ∧ (Forall (λ i, PrimFloat.is_nan (OrderItems.price i) = true) items →
         PriceFreight.price row = 0%float
         ∧ notna_float (PriceFreight.price row))
      ∧ (Forall (λ i, PrimFloat.is_nan (OrderItems.freight_value i) = true)
           items →
         PriceFreight.freight_value row = 0%float
         ∧ notna_float (PriceFreight.freight_value row)))
    (get_price_and_freight d).
Proof.
  unfold get_price_and_freight. apply Forall_fmap, Forall_forall.
  intros [k g] Hg. apply elem_of_groupby in Hg as [_ Hg].
  simpl in *. subst g. rewrite <- !sum_skipna_filter.
  split_and!; [reflexivity|reflexivity| |].
  - intros Hna. rewrite sum_skipna_filter, filter_notna_all_na.
    + by split.
    + by apply Forall_fmap.
  - intros Hna. rewrite sum_skipna_filter, filter_notna_all_na.
    + by split.
    + by apply Forall_fmap.
Qed.

(** ** More on the training set *)














(** The order reviewed twice gives two of the three rows. *)
Example get_training_data_twice_reviewed :
  ∃ ts : list training_row,
    get_training_data iso_datetime (λ _ _ _ _, 0%float)
      twice_reviewed true false = Ok ts
    ∧ WaitTime.order_id ∘ tr_wait <$> ts = ["o1"; "o1"; "o2"].
Proof. eexists. split; reflexivity. Qed.





(** ** The distance table *)











(** In [five_orders] the customer of [o2] and [o5] has a prefix without
    geolocation row, so these two orders have no distance. *)
Example get_distance_five_orders :
  Distance.order_id
    <$> get_distance_seller_customer (λ _ _ _ _, 0%float) five_orders
  = ["o1"; "o3"; "o4"].
Proof. reflexivity. Qed.

(** ** The date columns that are parsed and not used *)

Lemma Forall2_filter {A B} (R : A → B → Prop) (P : A → Prop) (Q : B → Prop)
    `{!∀ x, Decision (P x)} `{!∀ y, Decision (Q y)} l k :
  (∀ x y, R x y → (P x ↔ Q y)) →
  Forall2 R l k → Forall2 R (filter P l) (filter Q k).
Proof.
  intros HPQ. induction 1 as [|x y l k Hxy _ IH]; [constructor|].
  rewrite !filter_cons.
  destruct (decide (P x)) as [Hx|Hx], (decide (Q y)) as [Hy|Hy];
    [by constructor| | |exact IH].
  - by apply (HPQ _ _ Hxy) in Hx.
  - by apply (HPQ _ _ Hxy) in Hy.
Qed.

Lemma Forall2_fmap_eq {A B C} (f : A → C) (g : B → C) (R : A → B → Prop) l k :
  (∀ x y, R x y → f x = g y) → Forall2 R l k → f <$> l = g <$> k.
Proof.
  intros Hfg. induction 1 as [|x y l k Hxy _ IH]; [reflexivity|].
  rewrite !fmap_cons. f_equal; [by apply Hfg|exact IH].
Qed.

Lemma zip_with_Forall2_ext {A A' B C} (f : A → B → C) (g : A' → B → C) l l' k :
  Forall2 (λ x y, ∀ z, f x z = g y z) l l' →
  zip_with f l k = zip_with g l' k.
Proof.
  intros H. revert k. induction H as [|x y l l' Hxy _ IH]; intros k.
  - reflexivity.
  - destruct k as [|z k]; [reflexivity|]. simpl. by rewrite Hxy, IH.
Qed.

(** X17: the approval and carrier timestamps are parsed and then left
    aside: two orders tables that differ only in these two columns, both
    with date columns that parse, give the same wait-time table and
    the same training set. *)
Theorem unused_dates_do_not_matter to_datetime hav d d' b :
  Forall2 same_but_unused_dates (orders d) (orders d') →
  order_reviews d = order_reviews d' →
  order_items d = order_items d' →
  dates_parse to_datetime d → dates_parse to_datetime d' →
  get_wait_time to_datetime d b = get_wait_time to_datetime d' b
  ∧ get_training_data to_datetime hav d b false
    = get_training_data to_datetime hav d' b false.
Proof.
  intros Hsame Hrev Hitems Hparse Hparse'.
  assert (Hwt : get_wait_time to_datetime d b = get_wait_time to_datetime d' b).
  { assert (Hf : Forall2 same_but_unused_dates
                   (delivered_orders d) (delivered_orders d')).
    { eapply Forall2_filter; [|exact Hsame].
      intros x y (_ & _ & Hst & _). unfold is_delivered_order.
      by rewrite Hst. }
    destruct (get_wait_time_columns to_datetime d b Hparse)
      as (p & dl & es & Hp & Hdl & Hes & _ & _ & _ & ->).
    destruct (get_wait_time_columns to_datetime d' b Hparse')
      as (p' & dl' & es' & Hp' & Hdl' & Hes' & _ & _ & _ & ->).
    rewrite (Forall2_fmap_eq _ Orders.order_purchase_timestamp _ _ _
               (λ o o' H, proj1 (proj2 (proj2 (proj2 H)))) Hf) in Hp.
    rewrite (Forall2_fmap_eq _ Orders.order_delivered_customer_date _ _ _
               (λ o o' H, proj1 (proj2 (proj2 (proj2 (proj2 H))))) Hf) in Hdl.
    rewrite (Forall2_fmap_eq _ Orders.order_estimated_delivery_date _ _ _
               (λ o o' H, proj2 (proj2 (proj2 (proj2 (proj2 H))))) Hf) in Hes.
    rewrite Hp in Hp'. rewrite Hdl in Hdl'. rewrite Hes in Hes'.
    injection Hp' as <-. injection Hdl' as <-. injection Hes' as <-.
    f_equal. apply zip_with_Forall2_ext.
    eapply Forall2_impl; [exact Hf|].
    intros o o' (Hid & _ & Hst & _) ts. unfold wait_time_row.
    by rewrite Hid, Hst. }
  split; [exact Hwt|].
  unfold get_training_data. rewrite Hwt.
  unfold get_review_score, get_number_products, get_number_sellers,
    get_price_and_freight.
  by rewrite Hrev, Hitems.
Qed.

Lemma unused_dates_do_not_matter_sample :
  get_wait_time iso_datetime missing_timestamps true
  = get_wait_time iso_datetime other_unused_dates true
  ∧ get_training_data iso_datetime (λ _ _ _ _, 0%float)
      missing_timestamps true false
    = get_training_data iso_datetime (λ _ _ _ _, 0%float)
        other_unused_dates true false.
Proof.
  apply (unused_dates_do_not_matter iso_datetime (λ _ _ _ _, 0%float)
           missing_timestamps other_unused_dates true).
  - apply (bool_decide_unpack _). vm_compute. exact I.
  - reflexivity.
  - reflexivity.
  - apply (bool_decide_unpack _). vm_compute. exact I.
  - apply (bool_decide_unpack _). vm_compute. exact I.
Defined.

